(** * Usage tracking wrapper: a shallow embedding of
    [supabase/functions/_shared/usage-tracking-fixed.ts]

    The file exports [withUsageTracking], which decorates an HTTP handler
    with timing and logging, and keeps [logUsage], which writes one row to
    the [service_usage_logs] table, private.

    The embedding follows the TypeScript text statement by statement, in a
    state-and-exception monad.  What the source takes from its runtime
    (JSON parsing and printing, date formatting, the Supabase client) is a
    parameter of the model; what it mutates or observes (the system clock,
    request body streams, the process environment, the console, the
    requests sent to the store) lives in an explicit [World]. *)

From Stdlib Require Import String Ascii List ZArith QArith Bool Lia.
Import ListNotations.
Local Open Scope string_scope.
Local Open Scope Z_scope.
#[local] Set Warnings "-register-all".

(** ** JavaScript values *)

(** A JavaScript number: a finite double is a rational; the three special
    values are kept apart because [ToBoolean] treats them differently. *)
Inductive Number : Type :=
| NaN
| Infinity (negative : bool)
| Finite (q : Q).

(** The values the wrapper can meet: whatever [JSON.parse] produces,
    [undefined], and [Error] objects (what handlers usually throw). An
    object is the ordered list of its own properties.

    These are plain data: finite trees of data properties, and [Error]
    objects whose [message] is a string.  Values with behaviour of their
    own are not in this type: objects with accessor properties and
    proxies (reading a property of such an object runs code, which can
    throw or answer differently each time), functions, symbols, [BigInt]s
    and cyclic structures (which [JSON.stringify] refuses to print).  A
    statement about "every thrown value" is a statement about the thrown
    values of this type. *)
Inductive Value : Type :=
| VUndefined
| VNull
| VBool (b : bool)
| VNum (n : Number)
| VStr (s : string)
| VArr (items : list Value)
| VObj (props : list (string * Value))
| VError (name message : string).

(** The outcome of evaluating an expression or awaiting a promise: a value,
    or a thrown value (a rejected promise, once awaited). *)
Inductive Completion (A : Type) : Type :=
| Normal (a : A)
| Throw (e : Value).
Arguments Normal {A} a.
Arguments Throw {A} e.

Definition TypeError (message : string) : Value := VError "TypeError" message.
Definition SyntaxError (message : string) : Value := VError "SyntaxError" message.

(** [ToBoolean]: the test performed by [if (x)] and by [x || y]. *)
Definition truthy (v : Value) : bool :=
  match v with
  | VUndefined | VNull => false
  | VBool b => b
  | VNum NaN => false
  | VNum (Infinity _) => true
  | VNum (Finite q) => negb (Qeq_bool q 0)
  | VStr s => negb (String.eqb s EmptyString)
  | VArr _ | VObj _ | VError _ _ => true
  end.

Fixpoint own_property (props : list (string * Value)) (name : string)
  : option Value :=
  match props with
  | [] => None
  | (k, v) :: rest => if String.eqb k name then Some v else own_property rest name
  end.

(** Property read [v.name], for the two names the source reads
    ([project_name] and [message]), which no built-in prototype other than
    [Error.prototype] defines.  Reading a property of [undefined] or [null]
    throws a [TypeError]; primitives and arrays yield [undefined].  On the
    plain data of [Value] no other read throws, and reading twice gives
    the same answer; a throwing accessor is not a value of this type. *)
Definition get_property (v : Value) (name : string) : Completion Value :=
  match v with
  | VUndefined =>
      Throw (TypeError ("Cannot read properties of undefined (reading '"
                          ++ name ++ "')"))
  | VNull =>
      Throw (TypeError ("Cannot read properties of null (reading '"
                          ++ name ++ "')"))
  | VObj props =>
      Normal (match own_property props name with
              | Some x => x
              | None => VUndefined
              end)
  | VError n m =>
      Normal (if String.eqb name "message" then VStr m
              else if String.eqb name "name" then VStr n
              else VUndefined)
  | VBool _ | VNum _ | VStr _ | VArr _ => Normal VUndefined
  end.

(** [s || d] on an optional string ([null] and the empty string are falsy). *)
Definition or_else (s : option string) (d : string) : string :=
  match s with
  | Some x => if String.eqb x EmptyString then d else x
  | None => d
  end.

(** ** Fetch API objects *)

Definition Headers := list (string * string).

Definition lower (c : ascii) : ascii :=
  let n := nat_of_ascii c in
  if (Nat.leb 65 n && Nat.leb n 90)%bool then ascii_of_nat (n + 32)%nat else c.

Fixpoint lowercase (s : string) : string :=
  match s with
  | EmptyString => EmptyString
  | String c rest => String (lower c) (lowercase rest)
  end.

(** [headers.get(name)]: names match without regard to case; the values of
    all matching headers are joined by a comma and a space; [null] when
    there is none. *)
Definition Headers_get (h : Headers) (name : string) : option string :=
  match map snd (filter (fun kv => String.eqb (lowercase (fst kv)) (lowercase name)) h) with
  | [] => None
  | v :: vs => Some (String.concat ", " (v :: vs))
  end.

(** A body stream can be read once. *)
Inductive BodyState : Type :=
| Unread (text : string)
| Disturbed.

(** A request refers to its body stream by its address in the world
    ([None] is a request without a body), so that a clone and its original
    are different streams with the same contents. *)
Record Request : Type := {
  method : string;
  url : string;
  headers : Headers;
  body : option nat
}.

Record Response : Type := {
  status : Z;
  responseHeaders : Headers;
  responseBody : option string
}.

(** ** The logger's argument and the row it inserts *)

Record UsageData : Type := {
  serviceName : string;
  endpointId : option string;
  projectName : Value;
  requestTimestamp : string;
  responseStatus : Z;
  responseTimeMs : Z;
  errorMessage : Value;
  requestMetadata : list (string * Value)
}.

Record Row : Type := {
  service_name : string;
  endpoint_id : option string;
  project_name : Value;
  request_timestamp : string;
  response_status : Z;
  response_time_ms : Z;
  request_payload_size : Z;
  response_payload_size : Z;
  error_message : Value;
  request_metadata : list (string * Value)
}.

Record Client : Type := {
  supabaseUrl : option string;
  supabaseKey : option string
}.

Record Insert : Type := {
  insert_client : Client;
  insert_table : string;
  insert_row : Row
}.

Inductive Diagnostic : Type :=
| console_error_line (label : string) (detail : Value)
| console_log_line (label : string) (detail : Value).

(** ** The world *)

Record World : Type := {
  clock : nat -> Z;            (* successive readings of the system clock, ms *)
  reads : nat;                 (* how many readings were taken *)
  streams : list BodyState;    (* body streams, by address *)
  env : list (string * string);(* process environment *)
  console : list Diagnostic;   (* lines written to the console *)
  inserts : list Insert        (* inserts sent to the store *)
}.

(** The state threaded through the wrapper: the world, and the trace of the
    records handed to [logUsage] (a ghost field, out of the handler's
    reach). *)
Record State : Type := {
  world : World;
  dispatched : list UsageData
}.

(** A handler is any function of the request and the world. *)
Definition Handler := Request -> World -> Completion Response * World.

(** ** The runtime the source relies on *)

Record Platform : Type := {
  JSON_parse : string -> option Value;   (* [None]: SyntaxError *)
  JSON_stringify : Value -> string;
  toISOString : Z -> string
}.

(** The storage collaborator. [createClient_error url key] is what the
    client constructor throws, if it throws; [insert_outcome] is the
    [error] member of the reply to an insert, or the rejection of the
    request. *)
Record Storage : Type := {
  createClient_error : option string -> option string -> option Value;
  insert_outcome : World -> Client -> string -> Row -> Completion Value
}.

(** ** State and exception monad *)

Definition M (A : Type) : Type := State -> Completion A * State.

Definition ret {A} (a : A) : M A := fun s => (Normal a, s).

Definition throw {A} (e : Value) : M A := fun s => (Throw e, s).

Definition bind {A B} (m : M A) (k : A -> M B) : M B :=
  fun s =>
    match m s with
    | (Normal a, s') => k a s'
    | (Throw e, s') => (Throw e, s')
    end.

(** [try { m } catch (e) { h e }] *)
Definition try_catch {A} (m : M A) (h : Value -> M A) : M A :=
  fun s =>
    match m s with
    | (Normal a, s') => (Normal a, s')
    | (Throw e, s') => h e s'
    end.

Declare Scope js_scope.
Delimit Scope js_scope with js.
Notation "x <- m ;; k" := (bind m (fun x => k))
  (at level 100, m at next level, right associativity) : js_scope.
Notation "m ;;; k" := (bind m (fun _ => k))
  (at level 100, right associativity) : js_scope.
Local Open Scope js_scope.

Definition on_world (f : World -> World) (s : State) : State :=
  {| world := f (world s); dispatched := dispatched s |}.

Definition tick (w : World) : World :=
  {| clock := clock w; reads := S (reads w); streams := streams w;
     env := env w; console := console w; inserts := inserts w |}.

Definition set_streams (l : list BodyState) (w : World) : World :=
  {| clock := clock w; reads := reads w; streams := l;
     env := env w; console := console w; inserts := inserts w |}.

Definition write_console (d : Diagnostic) (w : World) : World :=
  {| clock := clock w; reads := reads w; streams := streams w;
     env := env w; console := console w ++ [d]; inserts := inserts w |}.

Definition send_insert (i : Insert) (w : World) : World :=
  {| clock := clock w; reads := reads w; streams := streams w;
     env := env w; console := console w; inserts := inserts w ++ [i] |}.

(** [Date.now()]: one reading of the system clock. *)
Definition Date_now : M Z :=
  fun s => (Normal (clock (world s) (reads (world s))), on_world tick s).

Definition console_error (label : string) (detail : Value) : M unit :=
  fun s => (Normal tt, on_world (write_console (console_error_line label detail)) s).

Definition console_log (label : string) (detail : Value) : M unit :=
  fun s => (Normal tt, on_world (write_console (console_log_line label detail)) s).

Fixpoint lookup (l : list (string * string)) (name : string) : option string :=
  match l with
  | [] => None
  | (k, v) :: rest => if String.eqb k name then Some v else lookup rest name
  end.

(** [Deno.env.get(name)] *)
Definition Deno_env_get (name : string) : M (option string) :=
  fun s => (Normal (lookup (env (world s)) name), s).

(** Replace the stream at address [r]. *)
Fixpoint replace_at {A} (r : nat) (x : A) (l : list A) : list A :=
  match l, r with
  | [], _ => []
  | _ :: rest, O => x :: rest
  | y :: rest, S r' => y :: replace_at r' x rest
  end.

(** [req.clone()]: throws when the body was already read; otherwise the
    clone gets a stream of its own with the same contents. *)
Definition Request_clone (req : Request) : M Request :=
  fun s =>
    match body req with
    | None => (Normal req, s)
    | Some r =>
        match nth_error (streams (world s)) r with
        | Some (Unread text) =>
            let fresh := length (streams (world s)) in
            (Normal {| method := method req; url := url req;
                       headers := headers req; body := Some fresh |},
             on_world (set_streams (streams (world s) ++ [Unread text])) s)
        | _ => (Throw (TypeError "Body is unusable"), s)
        end
    end.

Section Runtime.

Variable platform : Platform.
Variable storage : Storage.

(** [new Date().toISOString()]: a clock reading of its own. *)
Definition Date_toISOString : M string :=
  t <- Date_now ;; ret (toISOString platform t).

Definition parse (text : string) : M Value :=
  match JSON_parse platform text with
  | Some v => ret v
  | None => throw (SyntaxError "Unexpected token in JSON")
  end.

(** [req.json()]: reads the receiver's stream to its end, which disturbs
    it, and parses the text. A request without a body reads as the empty
    text. *)
Definition Request_json (req : Request) : M Value :=
  match body req with
  | None => parse EmptyString
  | Some r =>
      fun s =>
        match nth_error (streams (world s)) r with
        | Some (Unread text) =>
            parse text (on_world (set_streams (replace_at r Disturbed (streams (world s)))) s)
        | _ => (Throw (TypeError "Body is unusable"), s)
        end
  end.

(** [createClient(url, key)] *)
Definition createClient (supabaseUrl supabaseServiceKey : option string)
  : M Client :=
  match createClient_error storage supabaseUrl supabaseServiceKey with
  | Some e => throw e
  | None => ret {| supabaseUrl := supabaseUrl; supabaseKey := supabaseServiceKey |}
  end.

(** [const { error } = await supabase.from(table).insert(row)] *)
Definition from_insert (supabase : Client) (table : string) (row : Row)
  : M Value :=
  fun s =>
    (insert_outcome storage (world s) supabase table row,
     on_world (send_insert {| insert_client := supabase;
                              insert_table := table;
                              insert_row := row |}) s).

(** ** [logUsage] (source lines 87-128) *)

(** The object literal passed to [insert] (lines 107-118). *)
Definition row_of (data : UsageData) : Row :=
  {| service_name := serviceName data;
     endpoint_id := match endpointId data with
                    | Some e => if String.eqb e EmptyString then None else Some e
                    | None => None
                    end;
     project_name := projectName data;
     request_timestamp := requestTimestamp data;
     response_status := responseStatus data;
     response_time_ms := responseTimeMs data;
     request_payload_size := 0;
     response_payload_size := 0;
     error_message := errorMessage data;
     request_metadata := requestMetadata data |}.

(** The call itself, recorded in the ghost trace. *)
Definition received (data : UsageData) : M unit :=
  fun s => (Normal tt, {| world := world s; dispatched := dispatched s ++ [data] |}).

Definition logUsage (data : UsageData) : M unit :=
  received data ;;;
  try_catch
    (supabaseUrl <- Deno_env_get "SUPABASE_URL" ;;
     supabaseServiceKey <- Deno_env_get "SUPABASE_SERVICE_ROLE_KEY" ;;
     supabase <- createClient supabaseUrl supabaseServiceKey ;;
     error <- from_insert supabase "service_usage_logs" (row_of data) ;;
     if truthy error
     then console_error "Failed to log usage:" error
     else console_log "Usage logged successfully for" (VStr (serviceName data)))
    (fun error => console_error "Error in usage logging:" error).

(** [promise.catch(err => console.error(label, err))], not awaited: the
    promise's outcome is seen by the rejection handler and by nobody
    else.  The model runs the task to its end at the point of dispatch
    (the store's reply, which in reality comes after the wrapper has
    returned, is consulted at once), so whatever the task could do to the
    rest of the invocation, it does here. *)
Definition detached (task : M unit) (label : string) : M unit :=
  try_catch task (fun err => console_error label err).

(** ** [withUsageTracking] (source lines 4-84) *)

(** Lines 16-26: the project name. *)
Definition extract_projectName (req : Request) : M Value :=
  try_catch
    (clone <- Request_clone req ;;
     body <- Request_json clone ;;
     project_name <- (fun s => (get_property body "project_name", s)) ;;
     if truthy project_name then ret project_name else ret (VStr "default"))
    (fun _ =>
       ret (VStr (or_else (Headers_get (headers req) "X-Project-Name") "default"))).

Definition of_header (h : option string) : Value :=
  match h with
  | Some v => VStr v
  | None => VNull
  end.

Definition call (handler : Handler) (req : Request) : M Response :=
  fun s =>
    let (outcome, w) := handler req (world s) in
    (outcome, {| world := w; dispatched := dispatched s |}).

(** Lines 72-81.  [JSON.stringify] prints every object built from plain
    data (a member that is [undefined] is left out), so the platform's
    printer is a total function here; what it throws on, a [BigInt] or a
    cycle, is not a value of this model. *)
Definition error_response (message : Value) : Response :=
  {| status := 500;
     responseHeaders := [("Content-Type", "application/json")];
     responseBody :=
       Some (JSON_stringify platform
               (VObj [("error", VStr "Internal server error");
                      ("message", message)])) |}.

Definition withUsageTracking (handler : Handler) (serviceName : string)
  (endpointId : option string) (req : Request) : M Response :=
  startTime <- Date_now ;;
  try_catch
    (projectName <- extract_projectName req ;;
     response <- call handler req ;;
     now <- Date_now ;;
     let responseTimeMs := now - startTime in
     requestTimestamp <- Date_toISOString ;;
     detached
       (logUsage
          {| serviceName := serviceName;
             endpointId := endpointId;
             projectName := projectName;
             requestTimestamp := requestTimestamp;
             responseStatus := status response;
             responseTimeMs := responseTimeMs;
             errorMessage := VNull;
             requestMetadata :=
               [("method", VStr (method req));
                ("url", VStr (url req));
                ("userAgent", of_header (Headers_get (headers req) "user-agent"));
                ("origin", of_header (Headers_get (headers req) "origin"))] |})
       "Failed to log usage:" ;;;
     ret response)
    (fun error =>
       now <- Date_now ;;
       let responseTimeMs := now - startTime in
       requestTimestamp <- Date_toISOString ;;
       message <- (fun s => (get_property error "message", s)) ;;
       detached
         (logUsage
            {| serviceName := serviceName;
               endpointId := endpointId;
               projectName := VStr "error";
               requestTimestamp := requestTimestamp;
               responseStatus := 500;
               responseTimeMs := responseTimeMs;
               errorMessage := message;
               requestMetadata :=
                 [("method", VStr (method req));
                  ("url", VStr (url req))] |})
         "Failed to log error usage:" ;;;
       message' <- (fun s => (get_property error "message", s)) ;;
       ret (error_response message')).

(** One invocation of the wrapped handler, from a world [w]. *)
Definition invoke (handler : Handler) (serviceName : string)
  (endpointId : option string) (req : Request) (w : World)
  : Completion Response * State :=
  withUsageTracking handler serviceName endpointId req
    {| world := w; dispatched := [] |}.

End Runtime.

(** ** Sample runtime, used by the examples *)

Definition dq : string := String (ascii_of_nat 34) EmptyString.

Definition quoted (s : string) : string := (dq ++ s ++ dq)%string.

(** A parser that knows a handful of texts. *)
Definition sample_parse (text : string) : option Value :=
  if String.eqb text "{}" then Some (VObj [])
  else if String.eqb text
            ("{" ++ quoted "project_name" ++ ":" ++ quoted "acme" ++ "}")%string
       then Some (VObj [("project_name", VStr "acme")])
  else if String.eqb text "null" then Some VNull
  else None.

(** A printer for flat objects whose members are strings or [undefined]
    (members that are [undefined] are left out). *)
Fixpoint sample_members (props : list (string * Value)) : list string :=
  match props with
  | [] => []
  | (k, VStr v) :: rest => (quoted k ++ ":" ++ quoted v)%string :: sample_members rest
  | _ :: rest => sample_members rest
  end.

Definition sample_stringify (v : Value) : string :=
  match v with
  | VObj props => ("{" ++ String.concat "," (sample_members props) ++ "}")%string
  | _ => "null"
  end.

Definition sample_platform : Platform :=
  {| JSON_parse := sample_parse;
     JSON_stringify := sample_stringify;
     toISOString := fun _ => "2024-01-01T00:00:00.000Z" |}.

(** A store whose client constructor insists on both settings, as the
    Supabase client does, and which accepts every insert. *)
Definition sample_storage : Storage :=
  {| createClient_error := fun u k =>
       match u, k with
       | None, _ => Some (VError "Error" "supabaseUrl is required.")
       | _, None => Some (VError "Error" "supabaseKey is required.")
       | Some _, Some _ => None
       end;
     insert_outcome := fun _ _ _ _ => Normal VNull |}.

(** A store that rejects every insert. *)
Definition failing_storage : Storage :=
  {| createClient_error := fun _ _ => None;
     insert_outcome := fun _ _ _ _ =>
       Normal (VObj [("message", VStr "permission denied")]) |}.

Definition sample_env : list (string * string) :=
  [("SUPABASE_URL", "https://db.example"); ("SUPABASE_SERVICE_ROLE_KEY", "secret")].

Definition sample_world (texts : list BodyState) (readings : nat -> Z) : World :=
  {| clock := readings; reads := 0; streams := texts;
     env := sample_env; console := []; inserts := [] |}.

Definition steady_clock (k : nat) : Z := 1000 + 25 * Z.of_nat k.

Definition post (hs : Headers) (b : option nat) : Request :=
  {| method := "POST"; url := "https://fn.example/run"; headers := hs; body := b |}.

Definition ok_response : Response :=
  {| status := 200; responseHeaders := []; responseBody := Some "done" |}.

Definition not_found : Response :=
  {| status := 404; responseHeaders := [("X-Trace", "t1")]%string;
     responseBody := Some "missing"%string |}.

Definition returning (r : Response) : Handler := fun _ w => (Normal r, tick w).

Definition throwing (v : Value) : Handler := fun _ w => (Throw v, tick w).



(** ** Vocabulary of the statements *)

(** The world in which the wrapper calls the handler: after the first clock
    reading and the extraction of the project name. *)
Definition handler_entry (platform : Platform) (req : Request) (w : World)
  : World :=
  world (snd (extract_projectName platform req
                {| world := tick w; dispatched := [] |})).

(** The text a clone of the request reads: the contents of the request's
    stream while it is unread, the empty text for a request without a
    body; nothing when the stream was read already. *)
Definition body_text (req : Request) (w : World) : option string :=
  match body req with
  | None => Some EmptyString
  | Some r =>
      match nth_error (streams w) r with
      | Some (Unread text) => Some text
      | _ => None
      end
  end.

(** What [req.clone().json()] yields: the parsed body, or nothing when the
    request cannot be cloned or its text is not JSON. *)
Definition clone_json_yields (platform : Platform) (req : Request) (w : World)
  : option Value :=
  match body_text req w with
  | Some text => JSON_parse platform text
  | None => None
  end.

(** The project name the code derives, by cases on the parsed body and on
    the [X-Project-Name] header. *)
Inductive ProjectNameRule (parsed : option Value) (header : option string)
  : Value -> Prop :=
| name_from_body (v pn : Value) :
    parsed = Some v ->
    get_property v "project_name" = Normal pn ->
    truthy pn = true ->
    ProjectNameRule parsed header pn
| name_default_when_parsed (v pn : Value) :
    parsed = Some v ->
    get_property v "project_name" = Normal pn ->
    truthy pn = false ->
    ProjectNameRule parsed header (VStr "default")
| name_from_header_when_unparsed :
    parsed = None ->
    ProjectNameRule parsed header (VStr (or_else header "default"))
| name_from_header_when_nullish (v e : Value) :
    parsed = Some v ->
    get_property v "project_name" = Throw e ->
    ProjectNameRule parsed header (VStr (or_else header "default")).

(** The derivation as the specification words it: the body's
    [project_name] member when the body parses and has one, otherwise the
    header, otherwise ["default"]. *)
Definition spec_projectName (parsed : option Value) (header : option string)
  : Value :=
  match parsed with
  | Some (VObj props) =>
      match own_property props "project_name" with
      | Some pn => pn
      | None =>
          match header with
          | Some h => VStr h
          | None => VStr "default"
          end
      end
  | _ =>
      match header with
      | Some h => VStr h
      | None => VStr "default"
      end
  end.

Definition is_Error (v : Value) : bool :=
  match v with
  | VError _ _ => true
  | _ => false
  end.

(** The [message] property of a thrown value that is not an [Error]. *)
Definition message_of_non_error (v : Value) : Value :=
  match v with
  | VObj props =>
      match own_property props "message" with
      | Some x => x
      | None => VUndefined
      end
  | _ => VUndefined
  end.

(** A clock that is set back after its first reading. *)
Definition clock_set_back (k : nat) : Z :=
  match k with
  | O => 1000
  | S _ => 400
  end.

Definition acme_request : Request :=
  post [("X-Project-Name", "acme")] (Some 0%nat).

(** An object that is not an [Error], as the store's client reports its
    failures. *)
Definition postgrest_error : Value :=
  VObj [("message", VStr "permission denied"); ("code", VStr "42501")].

(** The two records the wrapper builds (lines 35-48 and 57-68). *)
Definition success_record (serviceName : string) (endpointId : option string)
  (req : Request) (pn : Value) (timestamp : string) (resp : Response)
  (elapsed : Z) : UsageData :=
  {| serviceName := serviceName;
     endpointId := endpointId;
     projectName := pn;
     requestTimestamp := timestamp;
     responseStatus := status resp;
     responseTimeMs := elapsed;
     errorMessage := VNull;
     requestMetadata :=
       [("method", VStr (method req));
        ("url", VStr (url req));
        ("userAgent", of_header (Headers_get (headers req) "user-agent"));
        ("origin", of_header (Headers_get (headers req) "origin"))] |}.

Definition failure_record (serviceName : string) (endpointId : option string)
  (req : Request) (timestamp : string) (message : Value) (elapsed : Z)
  : UsageData :=
  {| serviceName := serviceName;
     endpointId := endpointId;
     projectName := VStr "error";
     requestTimestamp := timestamp;
     responseStatus := 500;
     responseTimeMs := elapsed;
     errorMessage := message;
     requestMetadata :=
       [("method", VStr (method req)); ("url", VStr (url req))] |}.

(** What went wrong in a logging call, if anything did: the client could
    not be built (missing configuration), the request to the store failed,
    or the store refused the row. *)
Definition logging_failure (storage : Storage) (data : UsageData) (w : World)
  : option Value :=
  let supabaseUrl := lookup (env w) "SUPABASE_URL" in
  let supabaseServiceKey := lookup (env w) "SUPABASE_SERVICE_ROLE_KEY" in
  match createClient_error storage supabaseUrl supabaseServiceKey with
  | Some e => Some e
  | None =>
      match insert_outcome storage w
              {| supabaseUrl := supabaseUrl; supabaseKey := supabaseServiceKey |}
              "service_usage_logs" (row_of data) with
      | Throw e => Some e
      | Normal error => if truthy error then Some error else None
      end
  end.

(** The function [withUsageTracking] returns has the type of a handler
    and can be wrapped again: the wrapped handler, as a handler. *)
Definition as_handler (platform : Platform) (storage : Storage)
  (handler : Handler) (serviceName : string) (endpointId : option string)
  : Handler :=
  fun req w =>
    let run := invoke platform storage handler serviceName endpointId req w in
    (fst run, world (snd run)).

(** * Properties *)

Local Open Scope list_scope.

(** ** The logger *)

Section LoggerFacts.

Variable storage : Storage.

(** [logUsage] catches whatever happens inside it. *)
Lemma logUsage_returns (data : UsageData) (s : State) :
  logUsage storage data s = (Normal tt, snd (logUsage storage data s)).
Proof.
  unfold logUsage, bind, try_catch, received, Deno_env_get, createClient,
    from_insert, throw, ret, console_error, console_log.
  cbn.
  destruct (createClient_error storage _ _); cbn; [reflexivity|].
  destruct (insert_outcome storage _ _ _ _) as [error|e]; cbn; [|reflexivity].
  destruct (truthy error); reflexivity.
Qed.

(** It records the call, once. *)
Lemma logUsage_dispatched (data : UsageData) (s : State) :
  dispatched (snd (logUsage storage data s)) = dispatched s ++ [data].
Proof.
  unfold logUsage, bind, try_catch, received, Deno_env_get, createClient,
    from_insert, throw, ret, console_error, console_log.
  cbn.
  destruct (createClient_error storage _ _); cbn; [reflexivity|].
  destruct (insert_outcome storage _ _ _ _) as [error|e]; cbn; [|reflexivity].
  destruct (truthy error); reflexivity.
Qed.

(** The rejection handler attached to the promise has nothing to do. *)
Lemma detached_logUsage (data : UsageData) (label : string) (s : State) :
  detached (logUsage storage data) label s
  = (Normal tt, snd (logUsage storage data s)).
Proof.
  unfold detached, try_catch. rewrite logUsage_returns. reflexivity.
Qed.

(** The world a logging call leaves behind depends on the record only
    through the row and the service name. *)
Lemma logUsage_world (d1 d2 : UsageData) (s1 s2 : State) :
  world s1 = world s2 ->
  row_of d1 = row_of d2 ->
  world (snd (logUsage storage d1 s1)) = world (snd (logUsage storage d2 s2)).
Proof.
  intros Hw Hr.
  assert (Hn : serviceName d1 = serviceName d2)
    by exact (f_equal service_name Hr).
  unfold logUsage, bind, try_catch, received, Deno_env_get, createClient,
    from_insert, throw, ret, console_error, console_log.
  cbn. rewrite Hw, Hr, Hn.
  destruct (createClient_error storage _ _); cbn; [reflexivity|].
  destruct (insert_outcome storage _ _ _ _) as [error|e]; cbn; [|reflexivity].
  destruct (truthy error); reflexivity.
Qed.

End LoggerFacts.

(** ** The wrapper *)

Lemma replace_at_end {A} (l : list A) (x y : A) :
  replace_at (length l) y (l ++ [x]) = l ++ [y].
Proof.
  induction l as [|a l IH]; cbn; [reflexivity|].
  now rewrite IH.
Qed.

Lemma nth_error_end {A} (l : list A) (x : A) :
  nth_error (l ++ [x]) (length l) = Some x.
Proof.
  rewrite nth_error_app2 by lia.
  now rewrite Nat.sub_diag.
Qed.

Lemma on_world_streams_nil (s : State) :
  on_world (set_streams (streams (world s) ++ [])) s = s.
Proof.
  destruct s as [[c r l e k i] d]. unfold on_world, set_streams; cbn.
  now rewrite app_nil_r.
Qed.

Section WrapperFacts.

Variable platform : Platform.
Variable storage : Storage.

#[local] Arguments extract_projectName : simpl never.
#[local] Arguments logUsage : simpl never.
#[local] Arguments detached : simpl never.
#[local] Arguments get_property : simpl never.

(** Lines 16-26 never throw, leave every existing stream as it was (the
    clone's stream is new, and read), and obey [ProjectNameRule]. *)
Lemma extract_projectName_spec (req : Request) (s : State) :
  exists pn fresh,
    extract_projectName platform req s
    = (Normal pn, on_world (set_streams (streams (world s) ++ fresh)) s)
    /\ (fresh = [] \/ fresh = [Disturbed])
    /\ ProjectNameRule (clone_json_yields platform req (world s))
         (Headers_get (headers req) "X-Project-Name") pn.
Proof.
  unfold extract_projectName, clone_json_yields, body_text, try_catch, bind,
    Request_clone.
  destruct (body req) as [r|] eqn:Hb.
  - destruct (nth_error (streams (world s)) r) as [[text|]|] eqn:Hs.
    + unfold Request_json; cbn.
      rewrite nth_error_end, replace_at_end.
      unfold parse.
      destruct (JSON_parse platform text) as [v|] eqn:Hp; cbn.
      * destruct (get_property v "project_name") as [pn|e] eqn:Hg; cbn.
        -- destruct (truthy pn) eqn:Ht; cbn.
           ++ exists pn, [Disturbed]. split; [reflexivity|]. split; [auto|].
              eapply name_from_body; eauto.
           ++ exists (VStr "default"), [Disturbed]. split; [reflexivity|]. split; [auto|].
              eapply name_default_when_parsed; eauto.
        -- eexists _, [Disturbed]. split; [reflexivity|]. split; [auto|].
           eapply name_from_header_when_nullish; eauto.
      * eexists _, [Disturbed]. split; [reflexivity|]. split; [auto|].
        now apply name_from_header_when_unparsed.
    + cbn. eexists _, []. rewrite on_world_streams_nil. split; [reflexivity|]. split; [auto|].
      now apply name_from_header_when_unparsed.
    + cbn. eexists _, []. rewrite on_world_streams_nil. split; [reflexivity|]. split; [auto|].
      now apply name_from_header_when_unparsed.
  - unfold Request_json, parse; cbn. rewrite Hb.
    destruct (JSON_parse platform EmptyString) as [v|] eqn:Hp; cbn.
    + destruct (get_property v "project_name") as [pn|e] eqn:Hg; cbn.
      * destruct (truthy pn) eqn:Ht; cbn.
        -- exists pn, []. rewrite on_world_streams_nil. split; [reflexivity|]. split; [auto|].
           eapply name_from_body; eauto.
        -- exists (VStr "default"), []. rewrite on_world_streams_nil.
           split; [reflexivity|]. split; [auto|].
           eapply name_default_when_parsed; eauto.
      * eexists _, []. rewrite on_world_streams_nil. split; [reflexivity|]. split; [auto|].
        eapply name_from_header_when_nullish; eauto.
    + eexists _, []. rewrite on_world_streams_nil. split; [reflexivity|]. split; [auto|].
      now apply name_from_header_when_unparsed.
Qed.

(** The extraction seen from the wrapper's entry. *)
Lemma handler_entry_spec (req : Request) (w : World) :
  exists pn fresh,
    extract_projectName platform req {| world := tick w; dispatched := [] |}
    = (Normal pn, {| world := handler_entry platform req w; dispatched := [] |})
    /\ handler_entry platform req w = set_streams (streams w ++ fresh) (tick w)
    /\ (fresh = [] \/ fresh = [Disturbed])
    /\ ProjectNameRule (clone_json_yields platform req w)
         (Headers_get (headers req) "X-Project-Name") pn.
Proof.
  unfold handler_entry.
  destruct (extract_projectName_spec req {| world := tick w; dispatched := [] |})
    as (pn & fresh & E & F & R).
  exists pn, fresh. rewrite E. cbn. repeat split; assumption.
Qed.

(** The run when the handler returns. *)
Lemma invoke_returns (handler : Handler) (sn : string) (eid : option string)
  (req : Request) (w w2 : World) (pn : Value) (resp : Response) :
  extract_projectName platform req {| world := tick w; dispatched := [] |}
  = (Normal pn, {| world := handler_entry platform req w; dispatched := [] |}) ->
  handler req (handler_entry platform req w) = (Normal resp, w2) ->
  invoke platform storage handler sn eid req w
  = (Normal resp,
     snd (logUsage storage
            (success_record sn eid req pn
               (toISOString platform (clock w2 (S (reads w2)))) resp
               (clock w2 (reads w2) - clock w (reads w)))
            {| world := tick (tick w2); dispatched := [] |})).
Proof.
  intros E H.
  unfold invoke, withUsageTracking, bind, try_catch, Date_now, call,
    Date_toISOString, ret, on_world.
  cbn. rewrite E. cbn. rewrite H. cbn.
  rewrite detached_logUsage. reflexivity.
Qed.

(** The run when the handler throws a value whose [message] can be read. *)
Lemma invoke_throws (handler : Handler) (sn : string) (eid : option string)
  (req : Request) (w w2 : World) (pn thrown message : Value) :
  extract_projectName platform req {| world := tick w; dispatched := [] |}
  = (Normal pn, {| world := handler_entry platform req w; dispatched := [] |}) ->
  handler req (handler_entry platform req w) = (Throw thrown, w2) ->
  get_property thrown "message" = Normal message ->
  invoke platform storage handler sn eid req w
  = (Normal (error_response platform message),
     snd (logUsage storage
            (failure_record sn eid req
               (toISOString platform (clock w2 (S (reads w2)))) message
               (clock w2 (reads w2) - clock w (reads w)))
            {| world := tick (tick w2); dispatched := [] |})).
Proof.
  intros E H G.
  unfold invoke, withUsageTracking, bind, try_catch, Date_now, call,
    Date_toISOString, ret, on_world.
  cbn. rewrite E. cbn. rewrite H. cbn. rewrite G.
  rewrite detached_logUsage. reflexivity.
Qed.

(** The run when the handler throws [undefined] or [null]: reading
    [error.message] throws inside the catch block, before the logger is
    called, and the wrapper itself rejects. *)
Lemma invoke_throws_nullish (handler : Handler) (sn : string)
  (eid : option string) (req : Request) (w w2 : World) (pn thrown e : Value) :
  extract_projectName platform req {| world := tick w; dispatched := [] |}
  = (Normal pn, {| world := handler_entry platform req w; dispatched := [] |}) ->
  handler req (handler_entry platform req w) = (Throw thrown, w2) ->
  get_property thrown "message" = Throw e ->
  invoke platform storage handler sn eid req w
  = (Throw e, {| world := tick (tick w2); dispatched := [] |}).
Proof.
  intros E H G.
  unfold invoke, withUsageTracking, bind, try_catch, Date_now, call,
    Date_toISOString, ret, on_world.
  cbn. rewrite E. cbn. rewrite H. cbn. rewrite G. reflexivity.
Qed.

End WrapperFacts.

(** * The claims *)

Ltac at_entry p req w :=
  let pn := fresh "pn" in
  let fresh_streams := fresh "fresh" in
  let E := fresh "E" in
  let Hentry := fresh "Hentry" in
  let Hfresh := fresh "Hfresh" in
  let Hrule := fresh "Hrule" in
  destruct (handler_entry_spec p req w)
    as (pn & fresh_streams & E & Hentry & Hfresh & Hrule).

(** C1, as amended.  When the handler returns, the one record dispatched
    carries the project name given by [ProjectNameRule]: the [project_name]
    member of the parsed body when that member is truthy; ["default"] when
    the body parses but the member is missing or falsy, whatever the
    [X-Project-Name] header says; the header (or ["default"] when it is
    absent or empty) only when the clone cannot be read or parsed, or
    when the parsed value is [null], on which the member read throws.  In
    particular a body that parses to an object without [project_name]
    gives ["default"]. *)
Theorem C1_projectName_derivation (p : Platform) (st : Storage) (h : Handler)
  (sn : string) (eid : option string) (req : Request) (w w2 : World)
  (resp : Response) :
  h req (handler_entry p req w) = (Normal resp, w2) ->
  exists rec,
    dispatched (snd (invoke p st h sn eid req w)) = [rec]
    /\ ProjectNameRule (clone_json_yields p req w)
         (Headers_get (headers req) "X-Project-Name") (projectName rec)
    /\ forall props,
         clone_json_yields p req w = Some (VObj props) ->
         own_property props "project_name" = None ->
         projectName rec = VStr "default".
Proof.
  intros H. at_entry p req w.
  rewrite (invoke_returns p st h sn eid req w w2 pn resp E H).
  eexists. split; [|split].
  - cbn [snd]. rewrite logUsage_dispatched. reflexivity.
  - exact Hrule.
  - intros props Hp Hnone. cbn [projectName success_record].
    inversion Hrule as [v x Hv Hg Ht | v x Hv Hg Ht | Hv | v e Hv Hg];
      rewrite Hp in Hv; try discriminate;
      injection Hv as <-; cbn in Hg; rewrite Hnone in Hg.
    + injection Hg as <-. discriminate Ht.
    + reflexivity.
    + discriminate Hg.
Qed.

Lemma C1_projectName_derivation_witness :
  returning ok_response acme_request
    (handler_entry sample_platform acme_request
       (sample_world [Unread "{}"%string] steady_clock))
  = (Normal ok_response,
     tick (handler_entry sample_platform acme_request
             (sample_world [Unread "{}"%string] steady_clock)))
  /\ exists rec,
       dispatched (snd (invoke sample_platform sample_storage
                          (returning ok_response) "svc" None acme_request
                          (sample_world [Unread "{}"%string] steady_clock)))
       = [rec]
       /\ ProjectNameRule
            (clone_json_yields sample_platform acme_request
               (sample_world [Unread "{}"%string] steady_clock))
            (Headers_get (headers acme_request) "X-Project-Name")
            (projectName rec)
       /\ forall props,
            clone_json_yields sample_platform acme_request
              (sample_world [Unread "{}"%string] steady_clock)
            = Some (VObj props) ->
            own_property props "project_name" = None ->
            projectName rec = VStr "default".
Proof.
  split; [reflexivity|].
  eapply C1_projectName_derivation. reflexivity.
Defined.

(** C1, as stated, fails: a body that parses to the object [{}] with the
    header [X-Project-Name: acme] is recorded under ["default"], not under
    ["acme"] as the specification's wording ([spec_projectName]) has it. *)
Lemma C1_header_ignored_when_body_parses :
  let w := sample_world [Unread "{}"%string] steady_clock in
  let run := invoke sample_platform sample_storage (returning ok_response)
               "svc" None acme_request w in
  clone_json_yields sample_platform acme_request w = Some (VObj [])
  /\ Headers_get (headers acme_request) "X-Project-Name" = Some "acme"%string
  /\ spec_projectName (clone_json_yields sample_platform acme_request w)
       (Headers_get (headers acme_request) "X-Project-Name")
     = VStr "acme"
  /\ map projectName (dispatched (snd run)) = [VStr "default"]
  /\ map projectName (dispatched (snd run))
     <> [spec_projectName (clone_json_yields sample_platform acme_request w)
           (Headers_get (headers acme_request) "X-Project-Name")].
Proof.
  cbv zeta. repeat split; try reflexivity.
  vm_compute. discriminate.
Qed.

(** When the handler throws an [Error] whose message is the string [m]:
    one record, with status 500, project name ["error"] (whatever the
    body or the header said), error message [m] and metadata
    [{method, url}]; and a response with status 500, content type
    [application/json] and the JSON text of
    [{error: "Internal server error", message: m}]. *)
Theorem handler_throws_Error_object (p : Platform) (st : Storage) (h : Handler)
  (sn : string) (eid : option string) (req : Request) (w w2 : World)
  (n m : string) :
  h req (handler_entry p req w) = (Throw (VError n m), w2) ->
  exists s' rec,
    invoke p st h sn eid req w
    = (Normal {| status := 500;
                 responseHeaders := [("Content-Type", "application/json")]%string;
                 responseBody :=
                   Some (JSON_stringify p
                           (VObj [("error", VStr "Internal server error");
                                  ("message", VStr m)]%string)) |}, s')
    /\ dispatched s' = [rec]
    /\ responseStatus rec = 500
    /\ projectName rec = VStr "error"
    /\ errorMessage rec = VStr m
    /\ requestMetadata rec
       = [("method", VStr (method req)); ("url", VStr (url req))]%string
    /\ serviceName rec = sn
    /\ endpointId rec = eid.
Proof.
  intros H. at_entry p req w.
  rewrite (invoke_throws p st h sn eid req w w2 pn (VError n m) (VStr m)
             E H eq_refl).
  do 2 eexists. split; [reflexivity|].
  rewrite logUsage_dispatched. cbn. repeat split.
Qed.

Example handler_throws_an_Error :
  let run := invoke sample_platform sample_storage
               (throwing (VError "Error" "boom")) "svc" None acme_request
               (sample_world [Unread "{}"%string] steady_clock) in
  fst run = Normal (error_response sample_platform (VStr "boom"))
  /\ dispatched (snd run)
     = [failure_record "svc" None acme_request "2024-01-01T00:00:00.000Z"
          (VStr "boom") 50].
Proof.
  cbv zeta. split; reflexivity.
Qed.

(** C2 fails when the handler throws [undefined] or [null]: the caller
    gets no synthesized response, the wrapper's own promise rejects with
    the [TypeError] raised by [error.message] in the catch block, and no
    record is produced. *)
Theorem C2_no_response_when_handler_throws_null :
  let run := invoke sample_platform sample_storage (throwing VNull)
               "svc" (Some "e1"%string) (post [] None)
               (sample_world [] steady_clock) in
  fst run
  = Throw (TypeError "Cannot read properties of null (reading 'message')")
  /\ (forall resp, fst run <> Normal resp)
  /\ dispatched (snd run) = [].
Proof.
  cbv zeta. repeat split. intros resp. discriminate.
Qed.

(** C3.  When the handler returns a response, of whatever status, exactly
    one record is dispatched, with that status, error message [null] and
    metadata [{method, url, userAgent, origin}] (the two headers, [null]
    when absent); the wrapper returns the handler's response itself. *)
Theorem C3_handler_returns (p : Platform) (st : Storage) (h : Handler)
  (sn : string) (eid : option string) (req : Request) (w w2 : World)
  (resp : Response) :
  h req (handler_entry p req w) = (Normal resp, w2) ->
  exists s' rec,
    invoke p st h sn eid req w = (Normal resp, s')
    /\ dispatched s' = [rec]
    /\ responseStatus rec = status resp
    /\ errorMessage rec = VNull
    /\ requestMetadata rec
       = [("method", VStr (method req));
          ("url", VStr (url req));
          ("userAgent", of_header (Headers_get (headers req) "user-agent"));
          ("origin", of_header (Headers_get (headers req) "origin"))]%string
    /\ serviceName rec = sn
    /\ endpointId rec = eid.
Proof.
  intros H. at_entry p req w.
  rewrite (invoke_returns p st h sn eid req w w2 pn resp E H).
  do 2 eexists. split; [reflexivity|].
  rewrite logUsage_dispatched. cbn. repeat split.
Qed.

Lemma C3_handler_returns_witness :
  let w := sample_world [Unread "{}"%string] steady_clock in
  let req := post [("User-Agent", "curl/8"); ("Origin", "https://app.example")]%string
               (Some 0%nat) in
  returning not_found req (handler_entry sample_platform req w)
  = (Normal not_found, tick (handler_entry sample_platform req w))
  /\ exists s' rec,
       invoke sample_platform failing_storage (returning not_found) "svc"
         (Some "e1"%string) req w
       = (Normal not_found, s')
       /\ dispatched s' = [rec]
       /\ responseStatus rec = status not_found
       /\ errorMessage rec = VNull
       /\ requestMetadata rec
          = [("method", VStr (method req));
             ("url", VStr (url req));
             ("userAgent", of_header (Headers_get (headers req) "user-agent"));
             ("origin", of_header (Headers_get (headers req) "origin"))]%string
       /\ serviceName rec = "svc"%string
       /\ endpointId rec = Some "e1"%string.
Proof.
  cbv zeta. split; [reflexivity|].
  eapply C3_handler_returns. reflexivity.
Defined.

(** The response of a run does not depend on the store. *)
Lemma invoke_outcome_any_storage (p : Platform) (st st' : Storage)
  (h : Handler) (sn : string) (eid : option string) (req : Request)
  (w : World) :
  fst (invoke p st h sn eid req w) = fst (invoke p st' h sn eid req w).
Proof.
  at_entry p req w.
  destruct (h req (handler_entry p req w)) as [[resp|thrown] w2] eqn:H.
  - now rewrite !(invoke_returns p _ h sn eid req w w2 pn resp E H).
  - destruct (get_property thrown "message") as [message|e] eqn:G.
    + now rewrite !(invoke_throws p _ h sn eid req w w2 pn thrown message E H G).
    + now rewrite !(invoke_throws_nullish p _ h sn eid req w w2 pn thrown e E H G).
Qed.

(** The outcome of a run is a function of the handler's outcome alone:
    neither the store nor the environment read by the logger enters it. *)
Lemma invoke_outcome_formula (p : Platform) (st : Storage) (h : Handler)
  (sn : string) (eid : option string) (req : Request) (w : World) :
  fst (invoke p st h sn eid req w)
  = match fst (h req (handler_entry p req w)) with
    | Normal resp => Normal resp
    | Throw thrown =>
        match get_property thrown "message" with
        | Normal message => Normal (error_response p message)
        | Throw e => Throw e
        end
    end.
Proof.
  at_entry p req w.
  destruct (h req (handler_entry p req w)) as [[resp|thrown] w2] eqn:H.
  - now rewrite (invoke_returns p st h sn eid req w w2 pn resp E H).
  - cbn [fst].
    destruct (get_property thrown "message") as [message|e] eqn:G.
    + now rewrite (invoke_throws p st h sn eid req w w2 pn thrown message E H G).
    + now rewrite (invoke_throws_nullish p st h sn eid req w w2 pn thrown e E H G).
Qed.

(** C4.  Whatever the store does -- the client cannot be built because a
    setting is missing, the insert is refused, the request to the store
    fails -- [logUsage] completes normally, having written one line to the
    console (an error line carrying the failure when there was one); and
    the outcome of an invocation of the wrapped handler is the same with
    any two stores, so in particular with a failing and a working one: it
    is the handler's response, or the response built from what the handler
    threw. *)
Theorem C4_logging_failures_isolated (p : Platform) (st st' : Storage)
  (h : Handler) (sn : string) (eid : option string) (req : Request)
  (w : World) (data : UsageData) (s : State) :
  fst (logUsage st data s) = Normal tt
  /\ (exists line,
        console (world (snd (logUsage st data s))) = console (world s) ++ [line]
        /\ match logging_failure st data (world s) with
           | Some e => exists label, line = console_error_line label e
           | None =>
               line = console_log_line "Usage logged successfully for"
                        (VStr (serviceName data))
           end)
  /\ fst (invoke p st h sn eid req w) = fst (invoke p st' h sn eid req w)
  /\ fst (invoke p st h sn eid req w)
     = match fst (h req (handler_entry p req w)) with
       | Normal resp => Normal resp
       | Throw thrown =>
           match get_property thrown "message" with
           | Normal message => Normal (error_response p message)
           | Throw e => Throw e
           end
       end.
Proof.
  split; [|split; [|split]]; [| | apply invoke_outcome_any_storage |
                              apply invoke_outcome_formula].
  - now rewrite logUsage_returns.
  - unfold logging_failure, logUsage, bind, try_catch, received, Deno_env_get,
      createClient, from_insert, throw, ret, console_error, console_log.
    cbn.
    destruct (createClient_error st _ _) as [e|]; cbn.
    + eexists. split; [reflexivity|]. now eexists.
    + destruct (insert_outcome st _ _ _ _) as [error|e]; cbn.
      * destruct (truthy error); cbn; eexists; (split; [reflexivity|]);
          [now eexists | reflexivity].
      * eexists. split; [reflexivity|]. now eexists.
Qed.

(** C5 fails when the handler throws [undefined] (a promise rejected
    without a reason): the catch block reads [error.message] before it
    calls the logger, that read throws, and the invocation ends with a
    [TypeError] and no record at all. *)
Theorem C5_no_record_when_handler_throws_undefined :
  let run := invoke sample_platform sample_storage (throwing VUndefined)
               "svc" None acme_request
               (sample_world [Unread "{}"%string] steady_clock) in
  fst run
  = Throw (TypeError "Cannot read properties of undefined (reading 'message')")
  /\ dispatched (snd run) = []
  /\ inserts (world (snd run)) = [].
Proof.
  cbv zeta. repeat split.
Qed.

(** The number of records follows the read of [error.message] on line
    64: one record when the handler returns, one when it throws and that
    read yields a value, none when that read throws (as it does on
    [undefined] and [null]); never more than one. *)
Lemma records_per_invocation (p : Platform) (st : Storage) (h : Handler)
  (sn : string) (eid : option string) (req : Request) (w : World) :
  length (dispatched (snd (invoke p st h sn eid req w)))
  = match fst (h req (handler_entry p req w)) with
    | Normal _ => 1%nat
    | Throw thrown =>
        match get_property thrown "message" with
        | Normal _ => 1%nat
        | Throw _ => 0%nat
        end
    end.
Proof.
  at_entry p req w.
  destruct (h req (handler_entry p req w)) as [[resp|thrown] w2] eqn:H.
  - rewrite (invoke_returns p st h sn eid req w w2 pn resp E H).
    cbn [fst snd]. now rewrite logUsage_dispatched.
  - cbn [fst].
    destruct (get_property thrown "message") as [message|e] eqn:G.
    + rewrite (invoke_throws p st h sn eid req w w2 pn thrown message E H G).
      cbn [snd]. now rewrite logUsage_dispatched.
    + now rewrite (invoke_throws_nullish p st h sn eid req w w2 pn thrown e E H G).
Qed.

(** ** The request body *)

Lemma nth_error_replace_at {A} (l : list A) (r : nat) (x y : A) :
  nth_error l r = Some x -> nth_error (replace_at r y l) r = Some y.
Proof.
  revert r; induction l as [|a l IH]; intros [|r] H; cbn in *;
    try discriminate; [reflexivity | now apply IH].
Qed.

(** Reading the request itself, without cloning it, would leave the
    handler a disturbed stream. *)
Lemma reading_the_original_disturbs_it (p : Platform) (req : Request)
  (s : State) (r : nat) (text : string) :
  body req = Some r ->
  nth_error (streams (world s)) r = Some (Unread text) ->
  nth_error (streams (world (snd (Request_json p req s)))) r = Some Disturbed.
Proof.
  intros Hb Hs. unfold Request_json, parse. rewrite Hb, Hs.
  destruct (JSON_parse p text); cbn;
    now apply nth_error_replace_at with (x := Unread text).
Qed.

(** C6.  The wrapper reads a clone: in the world in which the handler is
    called every stream that existed at entry is as it was, so that the
    request's own body reads as it did at entry (unread, with the same
    text, when it was unread); and the run is a function of what the
    handler does with the original request in that world. *)
Theorem C6_handler_gets_the_unread_original (p : Platform) (req : Request)
  (w : World) :
  body_text req (handler_entry p req w) = body_text req w
  /\ (exists fresh, streams (handler_entry p req w) = streams w ++ fresh)
  /\ forall (st : Storage) (sn : string) (eid : option string),
     exists K : Completion Response * World -> Completion Response * State,
     forall h : Handler,
       invoke p st h sn eid req w = K (h req (handler_entry p req w)).
Proof.
  at_entry p req w.
  assert (Hstreams : streams (handler_entry p req w) = streams w ++ fresh)
    by (rewrite Hentry; reflexivity).
  split; [|split].
  - unfold body_text. destruct (body req) as [r|]; [|reflexivity].
    rewrite Hstreams.
    destruct (nth_error (streams w) r) as [b|] eqn:Hs.
    + rewrite nth_error_app1; [now rewrite Hs|].
      apply nth_error_Some. now rewrite Hs.
    + apply nth_error_None in Hs.
      destruct Hfresh as [-> | ->].
      * rewrite app_nil_r.
        now replace (nth_error (streams w) r) with (@None BodyState)
          by (symmetry; now apply nth_error_None).
      * rewrite nth_error_app2 by exact Hs.
        destruct (r - length (streams w))%nat as [|[|k]]; reflexivity.
  - now exists fresh.
  - intros st sn eid.
    exists (fun outcome =>
              match outcome with
              | (Normal resp, w2) =>
                  (Normal resp,
                   snd (logUsage st
                          (success_record sn eid req pn
                             (toISOString p (clock w2 (S (reads w2)))) resp
                             (clock w2 (reads w2) - clock w (reads w)))
                          {| world := tick (tick w2); dispatched := [] |}))
              | (Throw thrown, w2) =>
                  match get_property thrown "message" with
                  | Normal message =>
                      (Normal (error_response p message),
                       snd (logUsage st
                              (failure_record sn eid req
                                 (toISOString p (clock w2 (S (reads w2))))
                                 message
                                 (clock w2 (reads w2) - clock w (reads w)))
                              {| world := tick (tick w2); dispatched := [] |}))
                  | Throw e =>
                      (Throw e, {| world := tick (tick w2); dispatched := [] |})
                  end
              end).
    intros h.
    destruct (h req (handler_entry p req w)) as [[resp|thrown] w2] eqn:H.
    + exact (invoke_returns p st h sn eid req w w2 pn resp E H).
    + destruct (get_property thrown "message") as [message|e] eqn:G.
      * exact (invoke_throws p st h sn eid req w w2 pn thrown message E H G).
      * exact (invoke_throws_nullish p st h sn eid req w w2 pn thrown e E H G).
Qed.

(** On the sample request the handler finds the body unread, and the
    clone's stream, read, next to it. *)
Example handler_entry_example :
  let w := sample_world [Unread "{}"%string] steady_clock in
  body_text acme_request (handler_entry sample_platform acme_request w)
  = Some "{}"%string
  /\ streams (handler_entry sample_platform acme_request w)
     = [Unread "{}"%string; Disturbed].
Proof.
  cbv zeta. split; reflexivity.
Qed.

(** ** Elapsed time *)

(** C7, as amended.  The elapsed time of a dispatched record is the clock
    reading taken when the handler has settled minus the reading taken at
    entry, an integer; it is non-negative exactly when the second reading
    is not below the first. *)
Theorem C7_elapsed_is_clock_difference (p : Platform) (st : Storage)
  (h : Handler) (sn : string) (eid : option string) (req : Request)
  (w : World) (rec : UsageData) :
  In rec (dispatched (snd (invoke p st h sn eid req w))) ->
  let w2 := snd (h req (handler_entry p req w)) in
  responseTimeMs rec = clock w2 (reads w2) - clock w (reads w)
  /\ (0 <= responseTimeMs rec <-> clock w (reads w) <= clock w2 (reads w2)).
Proof.
  intros Hin w2. subst w2.
  assert (Heq : responseTimeMs rec
                = clock (snd (h req (handler_entry p req w)))
                    (reads (snd (h req (handler_entry p req w))))
                  - clock w (reads w)).
  { at_entry p req w.
    destruct (h req (handler_entry p req w)) as [[resp|thrown] w2] eqn:H.
    - rewrite (invoke_returns p st h sn eid req w w2 pn resp E H) in Hin.
      cbn [snd] in Hin. rewrite logUsage_dispatched in Hin.
      destruct Hin as [<-|[]]. reflexivity.
    - destruct (get_property thrown "message") as [message|e] eqn:G.
      + rewrite (invoke_throws p st h sn eid req w w2 pn thrown message E H G)
          in Hin.
        cbn [snd] in Hin. rewrite logUsage_dispatched in Hin.
        destruct Hin as [<-|[]]. reflexivity.
      + rewrite (invoke_throws_nullish p st h sn eid req w w2 pn thrown e E H G)
          in Hin.
        destruct Hin. }
  split; [exact Heq|]. rewrite Heq. lia.
Qed.

Lemma C7_elapsed_is_clock_difference_witness :
  let w := sample_world [Unread "{}"%string] steady_clock in
  let rec := success_record "svc" None acme_request (VStr "default")
               "2024-01-01T00:00:00.000Z" ok_response 50 in
  In rec (dispatched (snd (invoke sample_platform sample_storage
                             (returning ok_response) "svc" None
                             acme_request w)))
  /\ responseTimeMs rec = 1050 - 1000
  /\ (0 <= responseTimeMs rec <-> 1000 <= 1050).
Proof.
  cbv zeta.
  assert (Hin : In (success_record "svc" None acme_request (VStr "default")
                      "2024-01-01T00:00:00.000Z" ok_response 50)
                  (dispatched (snd (invoke sample_platform sample_storage
                                      (returning ok_response) "svc" None
                                      acme_request
                                      (sample_world [Unread "{}"%string]
                                         steady_clock)))))
    by (left; reflexivity).
  split; [exact Hin|].
  exact (C7_elapsed_is_clock_difference sample_platform sample_storage
           (returning ok_response) "svc" None acme_request
           (sample_world [Unread "{}"%string] steady_clock) _ Hin).
Defined.

(** C7, as stated, fails: when the system clock is set back while the
    handler runs (first reading 1000, later readings 400) the record
    carries a negative elapsed time. *)
Lemma C7_negative_elapsed_time :
  let run := invoke sample_platform sample_storage (returning ok_response)
               "svc" None acme_request
               (sample_world [Unread "{}"%string] clock_set_back) in
  map responseTimeMs (dispatched (snd run)) = [-600]
  /\ exists rec, In rec (dispatched (snd run)) /\ responseTimeMs rec < 0.
Proof.
  cbv zeta. split; [reflexivity|].
  eexists. split; [left; reflexivity|]. reflexivity.
Qed.

(** ** The inserted row *)

(** C8, as amended.  [logUsage] sends exactly one insert when the client
    can be built, and none when it cannot.  The insert goes to the table
    [service_usage_logs]; every field of the record goes to its column,
    both payload sizes are 0, and [endpoint_id] is [null] when the record
    has no endpoint id (or an empty one). *)
Theorem C8_insert_row (st : Storage) (data : UsageData) (s : State) :
  let supabaseUrl := lookup (env (world s)) "SUPABASE_URL" in
  let supabaseServiceKey := lookup (env (world s)) "SUPABASE_SERVICE_ROLE_KEY" in
  inserts (world (snd (logUsage st data s)))
  = inserts (world s)
    ++ match createClient_error st supabaseUrl supabaseServiceKey with
       | Some _ => []
       | None =>
           [{| insert_client :=
                 {| supabaseUrl := supabaseUrl;
                    supabaseKey := supabaseServiceKey |};
               insert_table := "service_usage_logs";
               insert_row :=
                 {| service_name := serviceName data;
                    endpoint_id :=
                      match endpointId data with
                      | None => None
                      | Some e =>
                          if String.eqb e EmptyString then None else Some e
                      end;
                    project_name := projectName data;
                    request_timestamp := requestTimestamp data;
                    response_status := responseStatus data;
                    response_time_ms := responseTimeMs data;
                    request_payload_size := 0;
                    response_payload_size := 0;
                    error_message := errorMessage data;
                    request_metadata := requestMetadata data |} |}]
       end.
Proof.
  cbv zeta.
  unfold logUsage, bind, try_catch, received, Deno_env_get, createClient,
    from_insert, throw, ret, console_error, console_log.
  cbn.
  destruct (createClient_error st _ _) as [e|]; cbn.
  - now rewrite app_nil_r.
  - unfold row_of.
    destruct (insert_outcome st _ _ _ _) as [error|e]; cbn;
      [destruct (truthy error)|]; destruct (endpointId data); reflexivity.
Qed.

(** C8, as stated, fails: without the settings the client cannot be built,
    and the logger, which did receive the record, sends no insert; it
    writes the failure to the console. *)
Lemma C8_no_insert_without_configuration :
  let w := {| clock := steady_clock; reads := 0; streams := [];
              env := []; console := []; inserts := [] |} in
  let data := failure_record "svc" None acme_request
                "2024-01-01T00:00:00.000Z" (VStr "boom") 50 in
  let s' := snd (logUsage sample_storage data {| world := w; dispatched := [] |}) in
  dispatched s' = [data]
  /\ inserts (world s') = []
  /\ length (inserts (world s')) <> 1%nat
  /\ console (world s')
     = [console_error_line "Error in usage logging:"
          (VError "Error" "supabaseUrl is required.")].
Proof.
  cbv zeta. repeat split. discriminate.
Qed.

(** ** Thrown values that are not errors *)

(** C9, as amended.  When the handler throws a plain data value that is
    not an [Error] and whose [message] property can be read (so neither
    [undefined] nor [null]), the wrapper returns the 500 response and
    dispatches one record; the error message of the record and the
    [message] member of the printed object are that [message] property:
    the member's value for an object that has one, [undefined] for every
    other object and for strings, numbers, booleans and arrays -- never
    the thrown text.  Thrown values with behaviour of their own (a
    [message] accessor that throws, a message [JSON.stringify] cannot
    print) are outside [Value] and outside this statement. *)
Theorem C9_non_error_thrown_value (p : Platform) (st : Storage) (h : Handler)
  (sn : string) (eid : option string) (req : Request) (w w2 : World)
  (thrown message : Value) :
  is_Error thrown = false ->
  h req (handler_entry p req w) = (Throw thrown, w2) ->
  get_property thrown "message" = Normal message ->
  exists s' rec,
    invoke p st h sn eid req w
    = (Normal {| status := 500;
                 responseHeaders := [("Content-Type", "application/json")]%string;
                 responseBody :=
                   Some (JSON_stringify p
                           (VObj [("error", VStr "Internal server error");
                                  ("message", message)]%string)) |},
       s')
    /\ dispatched s' = [rec]
    /\ responseStatus rec = 500
    /\ projectName rec = VStr "error"
    /\ errorMessage rec = message
    /\ message = message_of_non_error thrown
    /\ match thrown with
       | VObj props => message
                       = match own_property props "message" with
                         | Some x => x
                         | None => VUndefined
                         end
       | _ => message = VUndefined
       end.
Proof.
  intros Hne H G. at_entry p req w.
  rewrite (invoke_throws p st h sn eid req w w2 pn thrown message E H G).
  do 2 eexists. split; [reflexivity|].
  rewrite logUsage_dispatched. cbn.
  do 4 (split; [reflexivity|]).
  destruct thrown; cbn in G; try discriminate G; try discriminate Hne;
    injection G as <-; split; reflexivity.
Qed.

Lemma C9_non_error_thrown_value_witness :
  let w := sample_world [Unread "{}"%string] steady_clock in
  is_Error (VStr "oops") = false
  /\ throwing (VStr "oops") acme_request
       (handler_entry sample_platform acme_request w)
     = (Throw (VStr "oops"), tick (handler_entry sample_platform acme_request w))
  /\ get_property (VStr "oops") "message" = Normal VUndefined
  /\ exists s' rec,
       invoke sample_platform sample_storage (throwing (VStr "oops")) "svc"
         None acme_request w
       = (Normal {| status := 500;
                    responseHeaders :=
                      [("Content-Type", "application/json")]%string;
                    responseBody :=
                      Some (JSON_stringify sample_platform
                              (VObj [("error", VStr "Internal server error");
                                     ("message", VUndefined)]%string)) |},
          s')
       /\ dispatched s' = [rec]
       /\ responseStatus rec = 500
       /\ projectName rec = VStr "error"
       /\ errorMessage rec = VUndefined
       /\ VUndefined = message_of_non_error (VStr "oops")
       /\ VUndefined = VUndefined.
Proof.
  cbv zeta.
  split; [reflexivity|]. split; [reflexivity|]. split; [reflexivity|].
  apply (C9_non_error_thrown_value sample_platform sample_storage
           (throwing (VStr "oops")) "svc" None acme_request
           (sample_world [Unread "{}"%string] steady_clock)
           (tick (handler_entry sample_platform acme_request
                    (sample_world [Unread "{}"%string] steady_clock)))
           (VStr "oops") VUndefined);
    reflexivity.
Defined.

(** C9, as stated, fails: a thrown object that is not an [Error] but has a
    [message] (the shape in which the store's client reports failures) is
    recorded with that message, and the response carries it; neither is
    [undefined]. *)
Lemma C9_thrown_object_message_is_used :
  let run := invoke sample_platform sample_storage (throwing postgrest_error)
               "svc" None acme_request
               (sample_world [Unread "{}"%string] steady_clock) in
  is_Error postgrest_error = false
  /\ map errorMessage (dispatched (snd run)) = [VStr "permission denied"]
  /\ map errorMessage (dispatched (snd run)) <> [VUndefined]
  /\ fst run = Normal (error_response sample_platform (VStr "permission denied"))
  /\ fst run <> Normal (error_response sample_platform VUndefined).
Proof.
  cbv zeta. repeat split; try reflexivity; vm_compute; discriminate.
Qed.

(** ** The endpoint id *)

Lemma falsy_string (e : string) : truthy (VStr e) = false -> e = EmptyString.
Proof.
  cbn. intros H. apply String.eqb_eq. now destruct (String.eqb e EmptyString).
Qed.

(** What a logging call sends: one insert of [row_of data] into
    [service_usage_logs] when the client can be built, nothing when it
    cannot. *)
Lemma logUsage_inserts (st : Storage) (data : UsageData) (s : State) :
  inserts (world (snd (logUsage st data s)))
  = inserts (world s)
    ++ match createClient_error st (lookup (env (world s)) "SUPABASE_URL")
               (lookup (env (world s)) "SUPABASE_SERVICE_ROLE_KEY") with
       | Some _ => []
       | None =>
           [{| insert_client :=
                 {| supabaseUrl := lookup (env (world s)) "SUPABASE_URL";
                    supabaseKey :=
                      lookup (env (world s)) "SUPABASE_SERVICE_ROLE_KEY" |};
               insert_table := "service_usage_logs";
               insert_row := row_of data |}]
       end.
Proof.
  unfold logUsage, bind, try_catch, received, Deno_env_get, createClient,
    from_insert, throw, ret, console_error, console_log.
  cbn.
  destruct (createClient_error st _ _) as [e|]; cbn.
  - now rewrite app_nil_r.
  - destruct (insert_outcome st _ _ _ _) as [error|e]; cbn;
      [destruct (truthy error)|]; reflexivity.
Qed.

(** The records of an invocation carry the endpoint id given at wrap
    time. *)
Lemma dispatched_endpointId (p : Platform) (st : Storage) (h : Handler)
  (sn : string) (eid : option string) (req : Request) (w : World)
  (rec : UsageData) :
  In rec (dispatched (snd (invoke p st h sn eid req w))) ->
  endpointId rec = eid.
Proof.
  intros Hin. at_entry p req w.
  destruct (h req (handler_entry p req w)) as [[resp|thrown] w2] eqn:H.
  - rewrite (invoke_returns p st h sn eid req w w2 pn resp E H) in Hin.
    cbn [snd] in Hin. rewrite logUsage_dispatched in Hin.
    destruct Hin as [<-|[]]. reflexivity.
  - destruct (get_property thrown "message") as [message|e] eqn:G.
    + rewrite (invoke_throws p st h sn eid req w w2 pn thrown message E H G)
        in Hin.
      cbn [snd] in Hin. rewrite logUsage_dispatched in Hin.
      destruct Hin as [<-|[]]. reflexivity.
    + rewrite (invoke_throws_nullish p st h sn eid req w w2 pn thrown e E H G)
        in Hin.
      destruct Hin.
Qed.

(** C10.  An endpoint id given at wrap time as a falsy string (the empty
    string) reaches the logger in every record of the invocation, and the
    logger writes it as [null]: the insert it sends for such a record --
    one insert, when the client can be built -- has [endpoint_id] [null]
    and is the very insert sent for the same record without an endpoint
    id; an invocation leaves the same world, the same inserts in
    particular, as with no endpoint id at all. *)
Theorem C10_empty_endpointId_written_as_null (p : Platform) (st : Storage)
  (h : Handler) (sn : string) (req : Request) (w : World) (e : string) :
  truthy (VStr e) = false ->
  (forall sn' pn ts status ms message metadata (s : State),
     inserts
       (world
          (snd (logUsage st
                  {| serviceName := sn'; endpointId := Some e;
                     projectName := pn; requestTimestamp := ts;
                     responseStatus := status; responseTimeMs := ms;
                     errorMessage := message; requestMetadata := metadata |}
                  s)))
     = inserts (world s)
       ++ match createClient_error st (lookup (env (world s)) "SUPABASE_URL")
                  (lookup (env (world s)) "SUPABASE_SERVICE_ROLE_KEY") with
          | Some _ => []
          | None =>
              [{| insert_client :=
                    {| supabaseUrl := lookup (env (world s)) "SUPABASE_URL";
                       supabaseKey :=
                         lookup (env (world s)) "SUPABASE_SERVICE_ROLE_KEY" |};
                  insert_table := "service_usage_logs";
                  insert_row :=
                    {| service_name := sn';
                       endpoint_id := None;
                       project_name := pn;
                       request_timestamp := ts;
                       response_status := status;
                       response_time_ms := ms;
                       request_payload_size := 0;
                       response_payload_size := 0;
                       error_message := message;
                       request_metadata := metadata |} |}]
          end
     /\ inserts
          (world
             (snd (logUsage st
                     {| serviceName := sn'; endpointId := Some e;
                        projectName := pn; requestTimestamp := ts;
                        responseStatus := status; responseTimeMs := ms;
                        errorMessage := message; requestMetadata := metadata |}
                     s)))
        = inserts
            (world
               (snd (logUsage st
                       {| serviceName := sn'; endpointId := None;
                          projectName := pn; requestTimestamp := ts;
                          responseStatus := status; responseTimeMs := ms;
                          errorMessage := message;
                          requestMetadata := metadata |}
                       s)))
     /\ endpoint_id
          (row_of {| serviceName := sn'; endpointId := Some e;
                     projectName := pn; requestTimestamp := ts;
                     responseStatus := status; responseTimeMs := ms;
                     errorMessage := message; requestMetadata := metadata |})
        = None
     /\ row_of {| serviceName := sn'; endpointId := Some e; projectName := pn;
                  requestTimestamp := ts; responseStatus := status;
                  responseTimeMs := ms; errorMessage := message;
                  requestMetadata := metadata |}
        = row_of {| serviceName := sn'; endpointId := None; projectName := pn;
                    requestTimestamp := ts; responseStatus := status;
                    responseTimeMs := ms; errorMessage := message;
                    requestMetadata := metadata |})
  /\ (forall rec,
        In rec (dispatched (snd (invoke p st h sn (Some e) req w))) ->
        endpointId rec = Some e)
  /\ world (snd (invoke p st h sn (Some e) req w))
     = world (snd (invoke p st h sn None req w))
  /\ inserts (world (snd (invoke p st h sn (Some e) req w)))
     = inserts (world (snd (invoke p st h sn None req w))).
Proof.
  intros Hf. apply falsy_string in Hf. subst e.
  assert (Hw : world (snd (invoke p st h sn (Some EmptyString) req w))
               = world (snd (invoke p st h sn None req w))).
  { at_entry p req w.
    destruct (h req (handler_entry p req w)) as [[resp|thrown] w2] eqn:H.
    - rewrite !(invoke_returns p st h sn _ req w w2 pn resp E H).
      cbn [snd]. now apply logUsage_world.
    - destruct (get_property thrown "message") as [message|e] eqn:G.
      + rewrite !(invoke_throws p st h sn _ req w w2 pn thrown message E H G).
        cbn [snd]. now apply logUsage_world.
      + now rewrite !(invoke_throws_nullish p st h sn _ req w w2 pn thrown e E H G). }
  split; [|split; [|split]].
  - intros. rewrite !logUsage_inserts. cbn [row_of endpointId].
    split; [reflexivity|]. split; [reflexivity|]. split; reflexivity.
  - intros rec Hin. exact (dispatched_endpointId _ _ _ _ _ _ _ _ Hin).
  - exact Hw.
  - now rewrite Hw.
Qed.

Lemma C10_empty_endpointId_written_as_null_witness :
  let w := sample_world [Unread "{}"%string] steady_clock in
  let s := {| world := sample_world [] steady_clock; dispatched := [] |} in
  truthy (VStr EmptyString) = false
  /\ map (fun ins => endpoint_id (insert_row ins))
       (inserts
          (world
             (snd (logUsage sample_storage
                     (failure_record "svc" (Some EmptyString) acme_request
                        "2024-01-01T00:00:00.000Z" (VStr "boom") 50) s))))
     = [None]
  /\ world (snd (invoke sample_platform sample_storage (returning ok_response)
                   "svc" (Some EmptyString) acme_request w))
     = world (snd (invoke sample_platform sample_storage (returning ok_response)
                     "svc" None acme_request w)).
Proof.
  cbv zeta.
  destruct (C10_empty_endpointId_written_as_null sample_platform
              sample_storage (returning ok_response) "svc" acme_request
              (sample_world [Unread "{}"%string] steady_clock) EmptyString
              eq_refl)
    as (Hlog & _ & Hw & _).
  split; [reflexivity|]. split; [|exact Hw].
  destruct (Hlog "svc"%string (VStr "error") "2024-01-01T00:00:00.000Z"%string
              500 50 (VStr "boom")
              [("method", VStr (method acme_request));
               ("url", VStr (url acme_request))]%string
              {| world := sample_world [] steady_clock; dispatched := [] |})
    as (Hsent & _).
  unfold failure_record. rewrite Hsent. reflexivity.
Defined.

(** * Further properties of the wrapper and of the logger *)

(** ** The record of a failure *)

Lemma handler_throws_Error_object_witness :
  let w := sample_world [Unread "{}"%string] steady_clock in
  throwing (VError "Error" "boom") acme_request
    (handler_entry sample_platform acme_request w)
  = (Throw (VError "Error" "boom"),
     tick (handler_entry sample_platform acme_request w))
  /\ exists s' rec,
       invoke sample_platform sample_storage
         (throwing (VError "Error" "boom")) "svc" None acme_request w
       = (Normal {| status := 500;
                    responseHeaders :=
                      [("Content-Type", "application/json")]%string;
                    responseBody :=
                      Some (JSON_stringify sample_platform
                              (VObj [("error", VStr "Internal server error");
                                     ("message", VStr "boom")]%string)) |}, s')
       /\ dispatched s' = [rec]
       /\ responseStatus rec = 500
       /\ projectName rec = VStr "error"
       /\ errorMessage rec = VStr "boom"
       /\ requestMetadata rec
          = [("method", VStr (method acme_request));
             ("url", VStr (url acme_request))]%string
       /\ serviceName rec = "svc"%string
       /\ endpointId rec = None.
Proof.
  cbv zeta. split; [reflexivity|].
  eapply handler_throws_Error_object. reflexivity.
Defined.

(** When the handler throws and the read of [error.message] on line 64
    yields a value, the logger is handed exactly one record, built from
    that value: status 500, project name ["error"], the value read as
    error message, metadata [{method, url}], the service name and endpoint
    id given at wrap time, the elapsed time and the timestamp taken after
    the throw.  This is settled before the response is built on lines
    72-81. *)
Theorem failure_record_dispatched (p : Platform) (st : Storage) (h : Handler)
  (sn : string) (eid : option string) (req : Request) (w w2 : World)
  (thrown message : Value) :
  h req (handler_entry p req w) = (Throw thrown, w2) ->
  get_property thrown "message" = Normal message ->
  dispatched (snd (invoke p st h sn eid req w))
  = [{| serviceName := sn;
        endpointId := eid;
        projectName := VStr "error";
        requestTimestamp := toISOString p (clock w2 (S (reads w2)));
        responseStatus := 500;
        responseTimeMs := clock w2 (reads w2) - clock w (reads w);
        errorMessage := message;
        requestMetadata :=
          [("method", VStr (method req)); ("url", VStr (url req))]%string |}].
Proof.
  intros H G. at_entry p req w.
  rewrite (invoke_throws p st h sn eid req w w2 pn thrown message E H G).
  cbn [snd]. now rewrite logUsage_dispatched.
Qed.

Lemma failure_record_dispatched_witness :
  let w := sample_world [Unread "{}"%string] steady_clock in
  throwing postgrest_error acme_request
    (handler_entry sample_platform acme_request w)
  = (Throw postgrest_error,
     tick (handler_entry sample_platform acme_request w))
  /\ get_property postgrest_error "message" = Normal (VStr "permission denied")
  /\ dispatched (snd (invoke sample_platform sample_storage
                        (throwing postgrest_error) "svc" (Some "e1"%string)
                        acme_request w))
     = [{| serviceName := "svc";
           endpointId := Some "e1"%string;
           projectName := VStr "error";
           requestTimestamp := toISOString sample_platform 1075;
           responseStatus := 500;
           responseTimeMs := 1050 - 1000;
           errorMessage := VStr "permission denied";
           requestMetadata :=
             [("method", VStr (method acme_request));
              ("url", VStr (url acme_request))]%string |}].
Proof.
  cbv zeta. split; [reflexivity|]. split; [reflexivity|].
  apply (failure_record_dispatched sample_platform sample_storage
           (throwing postgrest_error) "svc" (Some "e1"%string) acme_request
           (sample_world [Unread "{}"%string] steady_clock)
           (tick (handler_entry sample_platform acme_request
                    (sample_world [Unread "{}"%string] steady_clock)))
           postgrest_error (VStr "permission denied"));
    reflexivity.
Defined.

(** ** The project name *)

Lemma or_else_truthy (h : option string) :
  truthy (VStr (or_else h "default")) = true.
Proof.
  destruct h as [x|]; cbn; [|reflexivity].
  destruct (String.eqb x EmptyString) eqn:Hx; cbn; [reflexivity|].
  now rewrite Hx.
Qed.

Lemma ProjectNameRule_truthy (parsed : option Value) (header : option string)
  (pn : Value) :
  ProjectNameRule parsed header pn -> truthy pn = true.
Proof.
  intros [v x _ _ Ht | v x _ _ _ | _ | v e _ _];
    [exact Ht | reflexivity | apply or_else_truthy | apply or_else_truthy].
Qed.

Lemma ProjectNameRule_functional (parsed : option Value)
  (header : option string) (a b : Value) :
  ProjectNameRule parsed header a -> ProjectNameRule parsed header b -> a = b.
Proof.
  intros Ha Hb.
  destruct Ha as [v x Hv Hg Ht | v x Hv Hg Ht | Hv | v e Hv Hg];
    destruct Hb as [v' x' Hv' Hg' Ht' | v' x' Hv' Hg' Ht' | Hv' | v' e' Hv' Hg'];
    try reflexivity;
    try (rewrite Hv in Hv'; discriminate Hv');
    rewrite Hv in Hv'; injection Hv' as <-; rewrite Hg in Hg';
    try discriminate Hg'; injection Hg' as <-;
    [reflexivity | rewrite Ht in Ht'; discriminate Ht'
     | rewrite Ht in Ht'; discriminate Ht'].
Qed.

(** The project name of a dispatched record is never falsy: not the empty
    string, not [null], not [undefined], not [0], not [false].  An empty
    header, or an empty or zero [project_name] member, gives ["default"]. *)
Theorem projectName_never_falsy (p : Platform) (st : Storage) (h : Handler)
  (sn : string) (eid : option string) (req : Request) (w : World)
  (rec : UsageData) :
  In rec (dispatched (snd (invoke p st h sn eid req w))) ->
  truthy (projectName rec) = true.
Proof.
  intros Hin. at_entry p req w.
  destruct (h req (handler_entry p req w)) as [[resp|thrown] w2] eqn:H.
  - rewrite (invoke_returns p st h sn eid req w w2 pn resp E H) in Hin.
    cbn [snd] in Hin. rewrite logUsage_dispatched in Hin.
    destruct Hin as [<-|[]]. cbn.
    exact (ProjectNameRule_truthy _ _ _ Hrule).
  - destruct (get_property thrown "message") as [message|e] eqn:G.
    + rewrite (invoke_throws p st h sn eid req w w2 pn thrown message E H G)
        in Hin.
      cbn [snd] in Hin. rewrite logUsage_dispatched in Hin.
      destruct Hin as [<-|[]]. reflexivity.
    + rewrite (invoke_throws_nullish p st h sn eid req w w2 pn thrown e E H G)
        in Hin.
      destruct Hin.
Qed.

Lemma projectName_never_falsy_witness :
  let w := sample_world [Unread "not json"%string] steady_clock in
  let req := post [("X-Project-Name", EmptyString)] (Some 0%nat) in
  let rec := success_record "svc" None req (VStr "default")
               "2024-01-01T00:00:00.000Z" ok_response 50 in
  In rec (dispatched (snd (invoke sample_platform sample_storage
                             (returning ok_response) "svc" None req w)))
  /\ truthy (projectName rec) = true.
Proof.
  cbv zeta.
  assert (Hin : In (success_record "svc" None
                      (post [("X-Project-Name", EmptyString)] (Some 0%nat))
                      (VStr "default") "2024-01-01T00:00:00.000Z"
                      ok_response 50)
                  (dispatched
                     (snd (invoke sample_platform sample_storage
                             (returning ok_response) "svc" None
                             (post [("X-Project-Name", EmptyString)] (Some 0%nat))
                             (sample_world [Unread "not json"%string]
                                steady_clock)))))
    by (left; reflexivity).
  split; [exact Hin|].
  exact (projectName_never_falsy sample_platform sample_storage
           (returning ok_response) "svc" None _ _ _ Hin).
Defined.

(** When the body parses to an object that has a [project_name] member,
    the record of a returning handler carries that member if it is truthy
    -- whatever its type, a number or an object as well as a string -- and
    ["default"] otherwise; the header plays no part. *)
Theorem projectName_from_member (p : Platform) (st : Storage) (h : Handler)
  (sn : string) (eid : option string) (req : Request) (w w2 : World)
  (resp : Response) (props : list (string * Value)) (member : Value) :
  h req (handler_entry p req w) = (Normal resp, w2) ->
  clone_json_yields p req w = Some (VObj props) ->
  own_property props "project_name" = Some member ->
  map projectName (dispatched (snd (invoke p st h sn eid req w)))
  = [if truthy member then member else VStr "default"].
Proof.
  intros H Hp Hm. at_entry p req w.
  rewrite (invoke_returns p st h sn eid req w w2 pn resp E H).
  cbn [snd]. rewrite logUsage_dispatched. cbn. f_equal.
  assert (Hg : get_property (VObj props) "project_name" = Normal member)
    by (cbn; now rewrite Hm).
  destruct (truthy member) eqn:Ht.
  - eapply ProjectNameRule_functional; [exact Hrule|].
    eapply name_from_body; eauto.
  - eapply ProjectNameRule_functional; [exact Hrule|].
    eapply name_default_when_parsed; eauto.
Qed.

Lemma projectName_from_member_witness :
  let text := ("{" ++ quoted "project_name" ++ ":" ++ quoted "acme" ++ "}")%string in
  let w := sample_world [Unread text] steady_clock in
  let req := post [("X-Project-Name", "other")]%string (Some 0%nat) in
  returning ok_response req (handler_entry sample_platform req w)
  = (Normal ok_response, tick (handler_entry sample_platform req w))
  /\ clone_json_yields sample_platform req w
     = Some (VObj [("project_name", VStr "acme")]%string)
  /\ own_property [("project_name", VStr "acme")]%string "project_name"
     = Some (VStr "acme")
  /\ map projectName
       (dispatched (snd (invoke sample_platform sample_storage
                           (returning ok_response) "svc" None req w)))
     = [VStr "acme"].
Proof.
  cbv zeta. split; [reflexivity|]. split; [reflexivity|]. split; [reflexivity|].
  apply (projectName_from_member sample_platform sample_storage
           (returning ok_response) "svc" None
           (post [("X-Project-Name", "other")]%string (Some 0%nat))
           (sample_world
              [Unread ("{" ++ quoted "project_name" ++ ":" ++ quoted "acme" ++ "}")%string]
              steady_clock)
           (tick (handler_entry sample_platform
                    (post [("X-Project-Name", "other")]%string (Some 0%nat))
                    (sample_world
                       [Unread ("{" ++ quoted "project_name" ++ ":"
                                  ++ quoted "acme" ++ "}")%string]
                       steady_clock)))
           ok_response [("project_name", VStr "acme")]%string (VStr "acme"));
    reflexivity.
Defined.

(** ** What a logging call and an invocation leave untouched *)

(** The two shapes of the world after a logging call: a console line
    written, with or without an insert sent before it. *)
Lemma logUsage_world_cases (st : Storage) (data : UsageData) (s : State) :
  exists line,
    ((exists e, line = console_error_line "Error in usage logging:" e)
     \/ (exists error,
           line = console_error_line "Failed to log usage:" error
           /\ truthy error = true)
     \/ line = console_log_line "Usage logged successfully for"
                 (VStr (serviceName data)))
    /\ (world (snd (logUsage st data s)) = write_console line (world s)
        \/ exists ins,
             world (snd (logUsage st data s))
             = write_console line (send_insert ins (world s))).
Proof.
  unfold logUsage, bind, try_catch, received, Deno_env_get, createClient,
    from_insert, throw, ret, console_error, console_log.
  cbn.
  destruct (createClient_error st _ _) as [e|]; cbn.
  - eexists. split; [|left; reflexivity]. left. now eexists.
  - destruct (insert_outcome st _ _ _ _) as [error|e]; cbn.
    + destruct (truthy error) eqn:Ht; cbn; eexists.
      * split; [|right; eexists; reflexivity]. right; left. now eexists.
      * split; [|right; eexists; reflexivity]. right; right. reflexivity.
    + eexists. split; [|right; eexists; reflexivity]. left. now eexists.
Qed.

(** A logging call reads the environment and the store and writes to the
    console and to the store; it takes no clock reading, touches no body
    stream and no setting, writes one console line -- one of its own
    three -- and sends at most one insert: it never retries. *)
Theorem logUsage_frame (st : Storage) (data : UsageData) (s : State) :
  let w := world s in
  let w' := world (snd (logUsage st data s)) in
  clock w' = clock w
  /\ reads w' = reads w
  /\ streams w' = streams w
  /\ env w' = env w
  /\ (exists ins, inserts w' = inserts w ++ ins /\ (length ins <= 1)%nat)
  /\ exists line,
       console w' = console w ++ [line]
       /\ ((exists e, line = console_error_line "Error in usage logging:" e)
           \/ (exists error,
                 line = console_error_line "Failed to log usage:" error
                 /\ truthy error = true)
           \/ line = console_log_line "Usage logged successfully for"
                       (VStr (serviceName data))).
Proof.
  cbv zeta.
  destruct (logUsage_world_cases st data s) as (line & Hkind & [Hw | [ins Hw]]);
    rewrite Hw; cbn; do 4 (split; [reflexivity|]); split.
  - exists []. split; [now rewrite app_nil_r | cbn; lia].
  - now exists line.
  - exists [ins]. split; [reflexivity | cbn; lia].
  - now exists line.
Qed.

(** Until the handler has been called the wrapper has taken one clock
    reading and done nothing else that shows: nothing is written to the
    console (a body that cannot be read or parsed is passed over in
    silence), nothing is sent to the store, no setting is changed. *)
Theorem nothing_logged_before_the_handler (p : Platform) (req : Request)
  (w : World) :
  console (handler_entry p req w) = console w
  /\ inserts (handler_entry p req w) = inserts w
  /\ env (handler_entry p req w) = env w
  /\ clock (handler_entry p req w) = clock w
  /\ reads (handler_entry p req w) = S (reads w).
Proof.
  at_entry p req w. rewrite Hentry. repeat split.
Qed.

(** Once the handler has settled, in a world [w2], the wrapper takes two
    more clock readings and makes at most one logging call: settings and
    body streams stay as the handler left them, at most one insert is
    sent and at most one line is written, and that line is one of the
    logger's own -- the rejection handlers attached to the logger's
    promise (labels of lines 49 and 69) never run. *)
Theorem invocation_frame (p : Platform) (st : Storage) (h : Handler)
  (sn : string) (eid : option string) (req : Request) (w : World) :
  let w2 := snd (h req (handler_entry p req w)) in
  let w' := world (snd (invoke p st h sn eid req w)) in
  env w' = env w2
  /\ streams w' = streams w2
  /\ clock w' = clock w2
  /\ reads w' = S (S (reads w2))
  /\ (exists ins, inserts w' = inserts w2 ++ ins /\ (length ins <= 1)%nat)
  /\ exists lines,
       console w' = console w2 ++ lines
       /\ (length lines <= 1)%nat
       /\ (forall e, ~ In (console_error_line "Failed to log error usage:" e) lines)
       /\ forall line, In line lines ->
            (exists e, line = console_error_line "Error in usage logging:" e)
            \/ (exists error,
                  line = console_error_line "Failed to log usage:" error
                  /\ truthy error = true)
            \/ line = console_log_line "Usage logged successfully for" (VStr sn).
Proof.
  cbv zeta. at_entry p req w.
  assert (Hlog : forall data,
             serviceName data = sn ->
             let w2 := snd (h req (handler_entry p req w)) in
             let w' := world (snd (logUsage st data
                                     {| world := tick (tick w2);
                                        dispatched := [] |})) in
             env w' = env w2
             /\ streams w' = streams w2
             /\ clock w' = clock w2
             /\ reads w' = S (S (reads w2))
             /\ (exists ins, inserts w' = inserts w2 ++ ins /\ (length ins <= 1)%nat)
             /\ exists lines,
                  console w' = console w2 ++ lines
                  /\ (length lines <= 1)%nat
                  /\ (forall e, ~ In (console_error_line
                                        "Failed to log error usage:" e) lines)
                  /\ forall line, In line lines ->
                       (exists e, line = console_error_line
                                           "Error in usage logging:" e)
                       \/ (exists error,
                             line = console_error_line "Failed to log usage:" error
                             /\ truthy error = true)
                       \/ line = console_log_line
                                   "Usage logged successfully for" (VStr sn)).
  { intros data Hsn. cbv zeta.
    destruct (logUsage_world_cases st data
                {| world := tick (tick (snd (h req (handler_entry p req w))));
                   dispatched := [] |})
      as (line & Hkind & Hshape).
    rewrite Hsn in Hkind.
    assert (Hlines : (forall e, ~ In (console_error_line
                                        "Failed to log error usage:" e) [line])
                     /\ forall l, In l [line] ->
                          (exists e, l = console_error_line
                                           "Error in usage logging:" e)
                          \/ (exists error,
                                l = console_error_line "Failed to log usage:" error
                                /\ truthy error = true)
                          \/ l = console_log_line
                                   "Usage logged successfully for" (VStr sn)).
    { split.
      - intros e [Heq|[]]. subst line.
        destruct Hkind as [[x Hx]|[[x [Hx _]]|Hx]]; discriminate Hx.
      - intros l [<-|[]]. exact Hkind. }
    destruct Hshape as [Hw | [ins Hw]]; rewrite Hw; cbn;
      do 4 (split; [reflexivity|]); split.
    - exists []. split; [now rewrite app_nil_r | cbn; lia].
    - exists [line]. split; [reflexivity|]. split; [cbn; lia | exact Hlines].
    - exists [ins]. split; [reflexivity | cbn; lia].
    - exists [line]. split; [reflexivity|]. split; [cbn; lia | exact Hlines]. }
  destruct (h req (handler_entry p req w)) as [[resp|thrown] w2] eqn:H.
  - rewrite (invoke_returns p st h sn eid req w w2 pn resp E H).
    cbn [snd] in *. now apply Hlog.
  - destruct (get_property thrown "message") as [message|e] eqn:G.
    + rewrite (invoke_throws p st h sn eid req w w2 pn thrown message E H G).
      cbn [snd] in *. now apply Hlog.
    + rewrite (invoke_throws_nullish p st h sn eid req w w2 pn thrown e E H G).
      cbn. do 4 (split; [reflexivity|]). split.
      * exists []. split; [now rewrite app_nil_r | cbn; lia].
      * exists []. rewrite app_nil_r.
        split; [reflexivity|]. split; [cbn; lia|].
        split; [intros x [] | intros x []].
Qed.

(** The timestamp of a record is taken when the record is built, after
    the handler has settled: it is the clock reading that follows the one
    the elapsed time is computed from, not the reading taken at entry. *)
Theorem requestTimestamp_is_logging_time (p : Platform) (st : Storage)
  (h : Handler) (sn : string) (eid : option string) (req : Request)
  (w : World) (rec : UsageData) :
  In rec (dispatched (snd (invoke p st h sn eid req w))) ->
  let w2 := snd (h req (handler_entry p req w)) in
  requestTimestamp rec = toISOString p (clock w2 (S (reads w2)))
  /\ responseTimeMs rec = clock w2 (reads w2) - clock w (reads w).
Proof.
  intros Hin. cbv zeta. at_entry p req w.
  destruct (h req (handler_entry p req w)) as [[resp|thrown] w2] eqn:H.
  - rewrite (invoke_returns p st h sn eid req w w2 pn resp E H) in Hin.
    cbn [snd] in Hin. rewrite logUsage_dispatched in Hin.
    destruct Hin as [<-|[]]. split; reflexivity.
  - destruct (get_property thrown "message") as [message|e] eqn:G.
    + rewrite (invoke_throws p st h sn eid req w w2 pn thrown message E H G)
        in Hin.
      cbn [snd] in Hin. rewrite logUsage_dispatched in Hin.
      destruct Hin as [<-|[]]. split; reflexivity.
    + rewrite (invoke_throws_nullish p st h sn eid req w w2 pn thrown e E H G)
        in Hin.
      destruct Hin.
Qed.

Lemma requestTimestamp_is_logging_time_witness :
  let w := sample_world [Unread "{}"%string] steady_clock in
  let rec := success_record "svc" None acme_request (VStr "default")
               "2024-01-01T00:00:00.000Z" ok_response 50 in
  In rec (dispatched (snd (invoke sample_platform sample_storage
                             (returning ok_response) "svc" None
                             acme_request w)))
  /\ requestTimestamp rec = toISOString sample_platform 1075
  /\ responseTimeMs rec = 1050 - 1000.
Proof.
  cbv zeta.
  assert (Hin : In (success_record "svc" None acme_request (VStr "default")
                      "2024-01-01T00:00:00.000Z" ok_response 50)
                  (dispatched (snd (invoke sample_platform sample_storage
                                      (returning ok_response) "svc" None
                                      acme_request
                                      (sample_world [Unread "{}"%string]
                                         steady_clock)))))
    by (left; reflexivity).
  split; [exact Hin|].
  exact (requestTimestamp_is_logging_time sample_platform sample_storage
           (returning ok_response) "svc" None acme_request
           (sample_world [Unread "{}"%string] steady_clock) _ Hin).
Defined.

(** ** Deriving the name again, and wrapping twice *)

Lemma body_text_fresh (req : Request) (w w' : World) (fresh : list BodyState) :
  streams w' = streams w ++ fresh ->
  fresh = [] \/ fresh = [Disturbed] ->
  body_text req w' = body_text req w.
Proof.
  intros Hs Hf. unfold body_text. destruct (body req) as [r|]; [|reflexivity].
  rewrite Hs.
  destruct (nth_error (streams w) r) as [b|] eqn:Hr.
  - rewrite nth_error_app1; [now rewrite Hr|].
    apply nth_error_Some. now rewrite Hr.
  - pose proof Hr as Hlen. apply nth_error_None in Hlen.
    destruct Hf as [-> | ->].
    + now rewrite app_nil_r, Hr.
    + rewrite nth_error_app2 by exact Hlen.
      destruct (r - length (streams w))%nat as [|[|k]]; reflexivity.
Qed.

(** Lines 16-26 can be run again on the same request and give the same
    name: what they read is their own clone, so a handler (or a second
    wrapper) that derives the name itself finds what the wrapper found. *)
Theorem projectName_extraction_repeatable (p : Platform) (req : Request)
  (s : State) :
  fst (extract_projectName p req (snd (extract_projectName p req s)))
  = fst (extract_projectName p req s).
Proof.
  destruct (extract_projectName_spec p req s) as (pn & fresh & E & F & R).
  rewrite E. cbn [fst snd].
  destruct (extract_projectName_spec p req
              (on_world (set_streams (streams (world s) ++ fresh)) s))
    as (pn' & fresh' & E' & F' & R').
  rewrite E'. cbn [fst]. f_equal.
  apply (ProjectNameRule_functional (clone_json_yields p req (world s))
           (Headers_get (headers req) "X-Project-Name")); [|exact R].
  replace (clone_json_yields p req (world s))
    with (clone_json_yields p req
            (world (on_world (set_streams (streams (world s) ++ fresh)) s)));
    [exact R'|].
  unfold clone_json_yields.
  now rewrite (body_text_fresh req (world s)
                 (world (on_world (set_streams (streams (world s) ++ fresh)) s))
                 fresh eq_refl F).
Qed.

Lemma clone_json_yields_at_entry (p : Platform) (req : Request) (w : World) :
  clone_json_yields p req (handler_entry p req w) = clone_json_yields p req w.
Proof.
  at_entry p req w. unfold clone_json_yields.
  rewrite (body_text_fresh req w (handler_entry p req w) fresh);
    [reflexivity | now rewrite Hentry | exact Hfresh].
Qed.

(** Wrapping a wrapped handler, the handler returning: the caller gets the
    handler's response, each layer dispatches one record under its own
    service name, both with the handler's status and with the same project
    name (the inner layer still finds the body unread). *)
Theorem wrapping_twice_returns (p : Platform) (st : Storage) (h : Handler)
  (sn1 sn2 : string) (eid1 eid2 : option string) (req : Request)
  (w w2 : World) (resp : Response) :
  h req (handler_entry p req (handler_entry p req w)) = (Normal resp, w2) ->
  exists s' rec_out rec_in,
    invoke p st (as_handler p st h sn1 eid1) sn2 eid2 req w = (Normal resp, s')
    /\ dispatched s' = [rec_out]
    /\ dispatched (snd (invoke p st h sn1 eid1 req (handler_entry p req w)))
       = [rec_in]
    /\ projectName rec_out = projectName rec_in
    /\ responseStatus rec_out = status resp
    /\ responseStatus rec_in = status resp
    /\ serviceName rec_out = sn2
    /\ serviceName rec_in = sn1.
Proof.
  intros H. at_entry p req w.
  destruct (handler_entry_spec p req (handler_entry p req w))
    as (pn1 & fresh1 & E1 & Hentry1 & Hfresh1 & Hrule1).
  pose proof (invoke_returns p st h sn1 eid1 req (handler_entry p req w) w2
                pn1 resp E1 H) as Hin.
  assert (Hout : as_handler p st h sn1 eid1 req (handler_entry p req w)
                 = (Normal resp,
                    world (snd (invoke p st h sn1 eid1 req
                                  (handler_entry p req w)))))
    by (unfold as_handler; now rewrite Hin).
  rewrite (invoke_returns p st _ sn2 eid2 req w _ pn resp E Hout).
  do 3 eexists. split; [reflexivity|].
  split; [cbn [snd]; now rewrite logUsage_dispatched|].
  split; [rewrite Hin; cbn [snd]; now rewrite logUsage_dispatched|].
  cbn. split; [|repeat split].
  rewrite clone_json_yields_at_entry in Hrule1.
  exact (ProjectNameRule_functional _ _ _ _ Hrule Hrule1).
Qed.

Lemma wrapping_twice_returns_witness :
  let w := sample_world [Unread "{}"%string] steady_clock in
  returning not_found acme_request
    (handler_entry sample_platform acme_request
       (handler_entry sample_platform acme_request w))
  = (Normal not_found,
     tick (handler_entry sample_platform acme_request
             (handler_entry sample_platform acme_request w)))
  /\ exists s' rec_out rec_in,
       invoke sample_platform sample_storage
         (as_handler sample_platform sample_storage (returning not_found)
            "inner" None) "outer" None acme_request w
       = (Normal not_found, s')
       /\ dispatched s' = [rec_out]
       /\ dispatched (snd (invoke sample_platform sample_storage
                             (returning not_found) "inner" None acme_request
                             (handler_entry sample_platform acme_request w)))
          = [rec_in]
       /\ projectName rec_out = projectName rec_in
       /\ responseStatus rec_out = status not_found
       /\ responseStatus rec_in = status not_found
       /\ serviceName rec_out = "outer"%string
       /\ serviceName rec_in = "inner"%string.
Proof.
  cbv zeta. split; [reflexivity|].
  eapply wrapping_twice_returns. reflexivity.
Defined.

(** Wrapping a wrapped handler, the handler throwing an [Error] whose
    message is the string [m]: the inner layer records the failure (project
    name ["error"], status 500, the message) and answers with the 500
    response; the outer layer sees a handler that returned, so the caller
    gets that response and the outer record has status 500, no error
    message, and the project name derived from the request. *)
Theorem wrapping_twice_throws (p : Platform) (st : Storage) (h : Handler)
  (sn1 sn2 : string) (eid1 eid2 : option string) (req : Request)
  (w w2 : World) (n m : string) :
  h req (handler_entry p req (handler_entry p req w))
  = (Throw (VError n m), w2) ->
  exists s' rec_out rec_in,
    invoke p st (as_handler p st h sn1 eid1) sn2 eid2 req w
    = (Normal (error_response p (VStr m)), s')
    /\ dispatched s' = [rec_out]
    /\ dispatched (snd (invoke p st h sn1 eid1 req (handler_entry p req w)))
       = [rec_in]
    /\ projectName rec_in = VStr "error"
    /\ errorMessage rec_in = VStr m
    /\ responseStatus rec_in = 500
    /\ responseStatus rec_out = 500
    /\ errorMessage rec_out = VNull
    /\ ProjectNameRule (clone_json_yields p req w)
         (Headers_get (headers req) "X-Project-Name") (projectName rec_out).
Proof.
  intros H. at_entry p req w.
  destruct (handler_entry_spec p req (handler_entry p req w))
    as (pn1 & fresh1 & E1 & Hentry1 & Hfresh1 & Hrule1).
  pose proof (invoke_throws p st h sn1 eid1 req (handler_entry p req w) w2
                pn1 (VError n m) (VStr m) E1 H eq_refl) as Hin.
  assert (Hout : as_handler p st h sn1 eid1 req (handler_entry p req w)
                 = (Normal (error_response p (VStr m)),
                    world (snd (invoke p st h sn1 eid1 req
                                  (handler_entry p req w)))))
    by (unfold as_handler; now rewrite Hin).
  rewrite (invoke_returns p st _ sn2 eid2 req w _ pn _ E Hout).
  do 3 eexists. split; [reflexivity|].
  split; [cbn [snd]; now rewrite logUsage_dispatched|].
  split; [rewrite Hin; cbn [snd]; now rewrite logUsage_dispatched|].
  cbn. do 5 (split; [reflexivity|]). exact Hrule.
Qed.

Lemma wrapping_twice_throws_witness :
  let w := sample_world [Unread "{}"%string] steady_clock in
  throwing (VError "Error" "boom") acme_request
    (handler_entry sample_platform acme_request
       (handler_entry sample_platform acme_request w))
  = (Throw (VError "Error" "boom"),
     tick (handler_entry sample_platform acme_request
             (handler_entry sample_platform acme_request w)))
  /\ exists s' rec_out rec_in,
       invoke sample_platform sample_storage
         (as_handler sample_platform sample_storage
            (throwing (VError "Error" "boom")) "inner" None)
         "outer" None acme_request w
       = (Normal (error_response sample_platform (VStr "boom")), s')
       /\ dispatched s' = [rec_out]
       /\ dispatched (snd (invoke sample_platform sample_storage
                             (throwing (VError "Error" "boom")) "inner" None
                             acme_request
                             (handler_entry sample_platform acme_request w)))
          = [rec_in]
       /\ projectName rec_in = VStr "error"
       /\ errorMessage rec_in = VStr "boom"
       /\ responseStatus rec_in = 500
       /\ responseStatus rec_out = 500
       /\ errorMessage rec_out = VNull
       /\ ProjectNameRule (clone_json_yields sample_platform acme_request w)
            (Headers_get (headers acme_request) "X-Project-Name")
            (projectName rec_out).
Proof.
  cbv zeta. split; [reflexivity|].
  eapply wrapping_twice_throws. reflexivity.
Defined.
